(** * The Binance Futures testnet patches of [exchange_factory.py]

    [ExchangeFactory._apply_patches] replaces four methods of a ccxt client
    by hand-built HTTP calls: [patched_fetch_balance], [patched_fetch_ticker],
    [patched_fetch_positions] and [patched_create_order].  This file embeds
    the four methods and proves what they do with a response.

    Python floats are IEEE binary64 numbers, as Rocq's primitive floats are;
    the dictionaries a caller only looks up in are finite maps, the one
    [urlencode] walks in insertion order is an association list. *)

From Stdlib Require Import ZArith Floats Ascii.
From stdpp Require Import gmap strings list pretty.

(** ** Python values *)

(** The scalars of a decoded JSON document, which are also the values a
    caller passes as amount, price and extra parameters. *)
Inductive atom :=
  | ANone
  | ABool (b : bool)
  | AInt (z : Z)
  | AFloat (f : float)
  | AStr (s : string).

Set Warnings "-register-all".

(** What [response.json()] returns.  A decoded object has no repeated key;
    lookup takes the first binding. *)
Inductive json :=
  | JAtom (a : atom)
  | JList (l : list json)
  | JDict (d : list (string * json)).

Coercion JAtom : atom >-> json.

(** The exceptions of the model.  [ApiError what data] is the
    [Exception(f"<what> failed: {data}")] of the four methods; the others
    are Python's own, [DecodeError] what [response.json()] raises on a body
    that is not JSON, and [LibraryError] whatever a ccxt routine raises. *)
Inductive exn :=
  | ApiError (what : string) (data : json)
  | AttributeError
  | KeyError (k : string)
  | TypeError
  | ValueError
  | OverflowError
  | DecodeError
  | LibraryError (msg : string).

Inductive result (A : Type) :=
  | Return (a : A)
  | Raise (e : exn).
Arguments Return {A} a.
Arguments Raise {A} e.

#[global] Instance result_ret : MRet result := @Return.
#[global] Instance result_bind : MBind result := λ A B f r,
  match r with Return a => f a | Raise e => Raise e end.

(** Whether a call returned. *)
Definition returns {A : Type} (r : result A) : bool :=
  match r with Return _ => true | Raise _ => false end.

(** The value a call returned, [fallback] if it raised. *)
Definition returned {A : Type} (fallback : A) (r : result A) : A :=
  match r with Return a => a | Raise _ => fallback end.

(** [bool(x)] *)
Definition atom_truthy (a : atom) : bool :=
  match a with
  | ANone => false
  | ABool b => b
  | AInt z => negb (z =? 0)%Z
  | AFloat f => negb (PrimFloat.eqb f 0)
  | AStr s => negb (String.eqb s "")
  end.

Definition truthy (x : json) : bool :=
  match x with
  | JAtom a => atom_truthy a
  | JList l => match l with [] => false | _ => true end
  | JDict d => match d with [] => false | _ => true end
  end.

(** Lookup in the bindings of a decoded object. *)
Fixpoint assoc {V : Type} (k : string) (d : list (string * V)) : option V :=
  match d with
  | [] => None
  | (k', v) :: d' => if String.eqb k k' then Some v else assoc k d'
  end.

(** [x.get(k, default)]: only a dict has the method. *)
Definition py_get (x : json) (k : string) (dflt : json) : result json :=
  match x with
  | JDict d => Return (default dflt (assoc k d))
  | _ => Raise AttributeError
  end.

(** [x[k]] with a string [k]. *)
Definition py_getitem (x : json) (k : string) : result json :=
  match x with
  | JDict d => match assoc k d with Some v => Return v | None => Raise (KeyError k) end
  | _ => Raise TypeError
  end.

(** The items a [for] loop over [x] visits: the elements of a list, the
    keys of a dict, the characters of a string. *)
Definition py_iter (x : json) : result (list json) :=
  match x with
  | JList l => Return l
  | JDict d => Return ((λ kv, JAtom (AStr kv.1)) <$> d)
  | JAtom (AStr s) => Return ((λ c, JAtom (AStr (String c ""))) <$> String.list_ascii_of_string s)
  | JAtom _ => Raise TypeError
  end.

(** [float(z)] of an int: rounded to the nearest binary64, ties to even;
    an int beyond the range raises. *)
Definition float_of_int (z : Z) : result float :=
  let f := SF2Prim (binary_normalize 53 1024 z 0 false) in
  if is_infinity f then Raise OverflowError else Return f.

(** The built-ins and standard-library routines the methods call and this
    repository does not define. *)
Class Builtins := {
  (** [float(s)] of a string, [None] where it raises [ValueError] *)
  float_of_str : string → option float;
  (** [str(f)] of a float *)
  str_of_float : float → string;
  (** [s.upper()] *)
  str_upper : string → string;
  (** [urllib.parse.quote_plus], which [urlencode] applies to keys and values *)
  quote_plus : string → string;
  (** [hmac.new(key, msg, hashlib.sha256).hexdigest()] *)
  hmac_sha256_hexdigest : string → string → string;
}.

Section Python.
Context {py : Builtins}.

(** [float(x)] *)
Definition py_float (x : json) : result float :=
  match x with
  | JAtom (AFloat f) => Return f
  | JAtom (AInt z) => float_of_int z
  | JAtom (ABool b) => Return (if b then 1%float else 0%float)
  | JAtom (AStr s) =>
      match float_of_str s with Some f => Return f | None => Raise ValueError end
  | JAtom ANone | JList _ | JDict _ => Raise TypeError
  end.

(** [str(a)] *)
Definition py_str (a : atom) : string :=
  match a with
  | ANone => "None"
  | ABool b => if b then "True" else "False"
  | AInt z => pretty z
  | AFloat f => str_of_float f
  | AStr s => s
  end.

End Python.

(** ** Dictionary keys *)

(** A hashable value as a dictionary key.  Python identifies keys that
    compare equal: [True], [1] and [1.0] are one key, so a number that is
    an integer is kept as that integer and only the other floats as floats. *)
Inductive pykey :=
  | KNone
  | KStr (s : string)
  | KInt (z : Z)
  | KFloat (f : spec_float).

#[global] Instance spec_float_eq_dec : EqDecision spec_float.
Proof. solve_decision. Defined.

#[global] Instance pykey_eq_dec : EqDecision pykey.
Proof. solve_decision. Defined.

Definition spec_float_code (f : spec_float) : bool + bool + unit + bool * positive * Z :=
  match f with
  | S754_zero s => inl (inl (inl s))
  | S754_infinity s => inl (inl (inr s))
  | S754_nan => inl (inr ())
  | S754_finite s m e => inr (s, m, e)
  end.

Definition spec_float_decode (c : bool + bool + unit + bool * positive * Z) : spec_float :=
  match c with
  | inl (inl (inl s)) => S754_zero s
  | inl (inl (inr s)) => S754_infinity s
  | inl (inr _) => S754_nan
  | inr (s, m, e) => S754_finite s m e
  end.

#[global] Instance spec_float_countable : Countable spec_float.
Proof.
  apply (inj_countable' spec_float_code spec_float_decode).
  by intros [].
Defined.

Definition pykey_code (k : pykey) : unit + string + Z + spec_float :=
  match k with
  | KNone => inl (inl (inl ()))
  | KStr s => inl (inl (inr s))
  | KInt z => inl (inr z)
  | KFloat f => inr f
  end.

Definition pykey_decode (c : unit + string + Z + spec_float) : pykey :=
  match c with
  | inl (inl (inl _)) => KNone
  | inl (inl (inr s)) => KStr s
  | inl (inr z) => KInt z
  | inr f => KFloat f
  end.

#[global] Instance pykey_countable : Countable pykey.
Proof.
  apply (inj_countable' pykey_code pykey_decode).
  by intros [].
Defined.

Coercion KStr : string >-> pykey.

(** The integer a float equals, when it equals one. *)
Definition integral (f : spec_float) : option Z :=
  match f with
  | S754_zero _ => Some 0%Z
  | S754_finite s m e =>
      let v := if s then Z.neg m else Z.pos m in
      if (0 <=? e)%Z then Some (v * 2 ^ e)%Z
      else if (Z.pos m mod 2 ^ (- e) =? 0)%Z then Some (v / 2 ^ (- e))%Z
      else None
  | S754_infinity _ | S754_nan => None
  end.

(** The key [d[x] = ...] files a value under; lists and dicts are not
    hashable. *)
Definition py_key (x : json) : result pykey :=
  match x with
  | JAtom ANone => Return KNone
  | JAtom (ABool b) => Return (KInt (if b then 1 else 0))
  | JAtom (AInt z) => Return (KInt z)
  | JAtom (AFloat f) =>
      Return (match integral (Prim2SF f) with
              | Some z => KInt z
              | None => KFloat (Prim2SF f)
              end)
  | JAtom (AStr s) => Return (KStr s)
  | JList _ | JDict _ => Raise TypeError
  end.

(** A [for] loop whose body may raise. *)
Fixpoint for_each {A S : Type} (body : S → A → result S) (s : S) (items : list A)
    : result S :=
  match items with
  | [] => Return s
  | x :: rest => s' ← body s x; for_each body s' rest
  end.

(** ** The balance snapshot *)

(** The dict [patched_fetch_balance] returns holds the payload under
    ['info'] and references to dicts of floats everywhere else.  Those dicts
    are shared objects: [result['free'][currency] = free] writes into
    whatever dict [result['free']] refers to at that moment, so they live in
    a store and [top] holds their addresses. *)
Inductive value :=
  | VJson (data : json)
  | VDict (ref : nat).

Record balance := {
  top : gmap pykey value;
  heap : list (gmap pykey float);
}.

(** [{'free': free, 'used': total - free, 'total': total}] *)
Definition triple (free total : float) : gmap pykey float :=
  <[KStr "total" := total]>
    (<[KStr "used" := PrimFloat.sub total free]> (<[KStr "free" := free]> ∅)).

(** [result = {'info': data, 'free': {}, 'used': {}, 'total': {}}] *)
Definition empty_balance (data : json) : balance :=
  {| top := <[KStr "total" := VDict 2]> (<[KStr "used" := VDict 1]>
              (<[KStr "free" := VDict 0]> (<[KStr "info" := VJson data]> ∅)));
     heap := [∅; ∅; ∅] |}.

(** [result[key] = d] for a fresh dict [d] *)
Definition set_entry (res : balance) (key : pykey) (d : gmap pykey float) : balance :=
  {| top := <[key := VDict (length (heap res))]> (top res);
     heap := heap res ++ [d] |}.

(** [result[name][key] = x].  The payload is only ever under ['info'],
    which this is never called with. *)
Definition set_sub (res : balance) (name : string) (key : pykey) (x : float)
    : result balance :=
  match top res !! KStr name with
  | Some (VDict l) =>
      Return {| top := top res; heap := alter (<[key := x]>) l (heap res) |}
  | Some (VJson _) => Raise TypeError
  | None => Raise (KeyError name)
  end.

(** The dict [result[key]] refers to. *)
Definition entry (res : balance) (key : pykey) : option (gmap pykey float) :=
  match top res !! key with
  | Some (VDict l) => heap res !! l
  | _ => None
  end.

Section Balance.
Context {py : Builtins}.

(** The body of the loop over [data.get('assets', [])]. *)
Definition balance_step (res : balance) (asset : json) : result balance :=
  currency ← py_get asset "asset" ANone;
  if negb (truthy currency) then Return res
  else
    wallet ← py_get asset "walletBalance" (AInt 0);
    total ← py_float wallet;
    available ← py_get asset "availableBalance" (AInt 0);
    free ← py_float available;
    key ← py_key currency;
    let res := set_entry res key (triple free total) in
    res ← set_sub res "free" key free;
    set_sub res "total" key total.

(** What [patched_fetch_balance] makes of the payload of a 200 response. *)
Definition balance_of_payload (data : json) : result balance :=
  assets ← py_get data "assets" (JList []);
  items ← py_iter assets;
  for_each balance_step (empty_balance data) items.

End Balance.

(** ** Signed requests *)

(** A dict in insertion order, as [urlencode] walks it. *)
Abbreviation odict := (list (string * atom)).

(** [k in d] *)
Definition od_mem (k : string) (d : odict) : bool :=
  match assoc k d with Some _ => true | None => false end.

(** [d[k] = v]: a present key keeps its place, a new one goes last. *)
Fixpoint od_set (k : string) (v : atom) (d : odict) : odict :=
  match d with
  | [] => [(k, v)]
  | (k', v') :: d' =>
      if String.eqb k k' then (k', v) :: d' else (k', v') :: od_set k v d'
  end.

(** [d.get(k, default)] *)
Definition od_get (k : string) (dflt : atom) (d : odict) : atom :=
  default dflt (assoc k d).

Inductive verb := GET | POST.

Record request := {
  method : verb;
  url : string;
  headers : list (string * string);
  ssl : bool;
}.

(** A response: its status and what [response.json()] decodes, [None]
    when the body is not JSON. *)
Record response := {
  status : Z;
  body : option json;
}.


Section Signing.
Context {py : Builtins}.

(** The text [urlencode] takes of each parameter: the key and [str(value)]. *)
Definition rendering (d : odict) : list (string * string) :=
  (λ kv, (kv.1, py_str kv.2)) <$> d.


(** [urlencode(d)] *)
Definition urlencode (d : odict) : string :=
  String.concat "&" ((λ kv, quote_plus kv.1 +:+ "=" +:+ quote_plus kv.2) <$> rendering d).

(** [hmac.new(secret.encode('utf-8'), query_string.encode('utf-8'),
    hashlib.sha256).hexdigest()] *)
Definition sign (secret query_string : string) : string :=
  hmac_sha256_hexdigest secret query_string.

(** [f"{endpoint}?{query_string}&signature={signature}"] *)
Definition signed_url (endpoint secret : string) (d : odict) : string :=
  let query_string := urlencode d in
  endpoint +:+ "?" +:+ query_string +:+ "&signature=" +:+ sign secret query_string.

(** [{'timestamp': timestamp, 'recvWindow': 60000}] *)
Definition payload (timestamp : Z) : odict :=
  [("timestamp", AInt timestamp); ("recvWindow", AInt 60000)].



End Signing.



(** ** The client and its world *)

(** What a library call that talks to the exchange leaves behind: the
    requests the library made of its own, the client as it is afterwards,
    and the exception if the call raised. *)
Record outcome (C : Type) := {
  requests : list request;
  client_after : C;
  raised : option exn;
}.
Arguments requests {C} o.
Arguments client_after {C} o.
Arguments raised {C} o.

(** What the methods use of the ccxt client they are bound to. *)
Class Ccxt := {
  client : Type;
  market_t : Type;
  ticker_t : Type;
  order_t : Type;
  apiKey : client → string;
  secret : client → string;
  (** [bool(self.markets)] *)
  markets : client → bool;
  (** [self.load_markets()] of the synchronous [ccxt.binance] the factory
      builds, run against the exchange *)
  load_markets : client → (request → response) → outcome client;
  (** [self.market(symbol)] *)
  market : client → string → result market_t;
  (** [market['id']] *)
  market_id : market_t → string;
  parse_ticker : client → json → market_t → result ticker_t;
  parse_order : client → json → market_t → result order_t;
}.

Section Methods.
Context {py : Builtins} {lib : Ccxt}.

(** The client, the clock, the exchange, and what a call leaves behind:
    the requests the patched code sent through its own aiohttp sessions,
    the requests the library sent of its own, and the order ids printed. *)
Record state := {
  self : client;
  clock : Z;
  server : request → response;
  sent : list request;
  library_sent : list request;
  printed : list json;
}.

Definition io (A : Type) : Type := state → state * result A.

#[local] Instance io_ret : MRet io := λ A a st, (st, Return a).
#[local] Instance io_bind : MBind io := λ A B f m st,
  match m st with
  | (st', Return a) => f a st'
  | (st', Raise e) => (st', Raise e)
  end.

Definition raise {A : Type} (e : exn) : io A := λ st, (st, Raise e).

Definition lift {A : Type} (r : result A) : io A := λ st, (st, r).

Definition get_self : io client := λ st, (st, Return (self st)).

(** [int(time.time() * 1000)] *)
Definition now : io Z := λ st, (st, Return (clock st)).

(** [session.get(url, ...)] and [session.post(url, ...)] *)
Definition send (rq : request) : io response := λ st,
  ({| self := self st; clock := clock st; server := server st;
      sent := sent st ++ [rq]; library_sent := library_sent st;
      printed := printed st |},
   Return (server st rq)).

(** [await response.json()] *)
Definition response_json (r : response) : io json :=
  match body r with
  | Some data => mret data
  | None => raise DecodeError
  end.

(** [print(f"... Order Success: ID={order_id}")] *)
Definition print_order_success (order_id : json) : io unit := λ st,
  ({| self := self st; clock := clock st; server := server st;
      sent := sent st; library_sent := library_sent st;
      printed := printed st ++ [order_id] |},
   Return ()).

(** [if not self.markets: await self.load_markets()].  The client is the
    synchronous [ccxt.binance] (lines 13 and 35), so [self.load_markets()]
    is no coroutine: it runs to its end before [await] sees its result.
    When it raises, that exception leaves the method; when it returns, it
    returns the markets, a dict, and [await] of a dict raises [TypeError]. *)
Definition ensure_markets : io unit := λ st,
  if markets (self st) then (st, Return ())
  else
    let load := load_markets (self st) (server st) in
    ({| self := client_after load; clock := clock st; server := server st;
        sent := sent st; library_sent := library_sent st ++ requests load;
        printed := printed st |},
     Raise (default TypeError (raised load))).

Definition testnet : string := "https://testnet.binancefuture.com".

(** *** PATCH 1: fetch_balance *)

(** The request of lines 57-71: the signed account URL and the key header. *)
Definition account_request (me : client) (timestamp : Z) : request :=
  let url := signed_url (testnet +:+ "/fapi/v2/account") (secret me) (payload timestamp) in
  let headers := [("X-MBX-APIKEY", apiKey me)] in
  {| method := GET; url := url; headers := headers; ssl := false |}.

Definition patched_fetch_balance (params : odict) : io balance :=
  timestamp ← now;
  me ← get_self;
  response ← send (account_request me timestamp);
  data ← response_json response;
  if negb (status response =? 200)%Z then raise (ApiError "Balance fetch" data)
  else lift (balance_of_payload data).

(** *** PATCH 2: fetch_ticker *)

(** The unsigned request of lines 96-99. *)
Definition ticker_request (market : market_t) : request :=
  let url := testnet +:+ "/fapi/v1/ticker/24hr?symbol=" +:+ market_id market in
  {| method := GET; url := url; headers := []; ssl := false |}.

Definition patched_fetch_ticker (symbol : string) (params : odict) : io ticker_t :=
  ensure_markets;;
  me ← get_self;
  market ← lift (market me symbol);
  response ← send (ticker_request market);
  data ← response_json response;
  if negb (status response =? 200)%Z then raise (ApiError "Ticker fetch" data)
  else lift (parse_ticker me data market).

(** *** PATCH 3: fetch_positions *)

Record position := {
  info : json;
  symbol : json;
  contracts : float;
  unrealizedPnl : float;
  leverage : float;
  side : string;
  entryPrice : float;
}.

(** The dict the loop appends for one item. *)
Definition position_of_item (item : json) : result position :=
  sym ← py_getitem item "symbol";
  amt ← py_getitem item "positionAmt" ≫= py_float;
  pnl ← py_getitem item "unRealizedProfit" ≫= py_float;
  lev ← py_getitem item "leverage" ≫= py_float;
  amt' ← py_getitem item "positionAmt" ≫= py_float;
  price ← py_getitem item "entryPrice" ≫= py_float;
  Return {| info := item; symbol := sym; contracts := amt; unrealizedPnl := pnl;
            leverage := lev;
            side := if PrimFloat.ltb 0 amt' then "long" else "short";
            entryPrice := price |}.

(** [result = []; for item in items: result.append(...)] *)
Fixpoint positions_of_items (items : list json) : result (list position) :=
  match items with
  | [] => Return []
  | item :: rest =>
      p ← position_of_item item;
      ps ← positions_of_items rest;
      Return (p :: ps)
  end.

Definition positions_of_payload (data : json) : result (list position) :=
  items ← py_iter data;
  positions_of_items items.

(** The request of lines 109-123; [symbols] and [params] are in scope and
    not read. *)
Definition position_risk_request (me : client) (symbols : option (list string))
    (params : odict) (timestamp : Z) : request :=
  let url := signed_url (testnet +:+ "/fapi/v2/positionRisk") (secret me) (payload timestamp) in
  let headers := [("X-MBX-APIKEY", apiKey me)] in
  {| method := GET; url := url; headers := headers; ssl := false |}.

Definition patched_fetch_positions (symbols : option (list string)) (params : odict)
    : io (list position) :=
  timestamp ← now;
  me ← get_self;
  response ← send (position_risk_request me symbols params timestamp);
  data ← response_json response;
  if negb (status response =? 200)%Z then raise (ApiError "Positions fetch" data)
  else lift (positions_of_payload data).

(** *** PATCH 4: create_order *)

(** [order_params] as the method has it before it merges [params]: the six
    fields of the literal, then price and timeInForce of a LIMIT order. *)
Definition required_params (id type side : string) (amount price : atom)
    (params : odict) (timestamp : Z) : odict :=
  let order_params :=
    [("symbol", AStr id);
     ("side", AStr (str_upper side));
     ("type", AStr (str_upper type));
     ("quantity", AStr (py_str amount));
     ("timestamp", AInt timestamp);
     ("recvWindow", AInt 60000)] in
  if atom_truthy price && String.eqb (str_upper type) "LIMIT" then
    od_set "timeInForce" (od_get "timeInForce" (AStr "GTC") params)
      (od_set "price" (AStr (py_str price)) order_params)
  else order_params.

(** [for key, value in params.items(): if key not in order_params:
    order_params[key] = value] *)
Fixpoint merge_params (order_params params : odict) : odict :=
  match params with
  | [] => order_params
  | (key, value) :: rest =>
      merge_params
        (if od_mem key order_params then order_params
         else od_set key value order_params)
        rest
  end.

(** What the method signs. *)
Definition order_params (id type side : string) (amount price : atom)
    (params : odict) (timestamp : Z) : odict :=
  merge_params (required_params id type side amount price params timestamp) params.

(** The request of lines 168-179. *)
Definition order_request (me : client) (signed : odict) : request :=
  let url := signed_url (testnet +:+ "/fapi/v1/order") (secret me) signed in
  let headers := [("X-MBX-APIKEY", apiKey me)] in
  {| method := POST; url := url; headers := headers; ssl := false |}.

Definition patched_create_order (symbol type side : string) (amount price : atom)
    (params : odict) : io order_t :=
  ensure_markets;;
  me ← get_self;
  market ← lift (market me symbol);
  timestamp ← now;
  let signed :=
    order_params (market_id market) type side amount price params timestamp in
  response ← send (order_request me signed);
  data ← response_json response;
  if negb (status response =? 200)%Z then raise (ApiError "Order" data)
  else
    order_id ← lift (py_get data "orderId" ANone);
    print_order_success order_id;;
    lift (parse_order me data market).

(** *** What a method does with the response *)

(** The method [op] answers a non-200 response whose body decodes to [data]
    with the API error of [what] carrying [data].  The response is the one
    to the request the call sent. *)
Definition raises_api_error {A : Type} (op : io A) (what : string) : Prop :=
  ∀ st st' out rq data,
    op st = (st', out) → sent st' = sent st ++ [rq] →
    body (server st rq) = Some data → status (server st rq) ≠ 200%Z →
    out = Raise (ApiError what data).

(** The method [op] answers a 200 response whose body decodes to [data]
    with whatever [reshape] makes of [data], a value or an exception. *)
Definition reshapes {A : Type} (op : io A) (reshape : client → json → result A) : Prop :=
  ∀ st st' out rq data,
    op st = (st', out) → sent st' = sent st ++ [rq] →
    body (server st rq) = Some data → status (server st rq) = 200%Z →
    out = reshape (self st') data.

End Methods.

(** ** The loop of [patched_fetch_balance], in two halves *)

Section BalanceParts.
Context {py : Builtins}.

(** What lines 78-82 read off one asset: nothing for a skipped one, else
    the key, [free] and [total]. *)
Definition asset_record (asset : json) : result (option (pykey * float * float)) :=
  currency ← py_get asset "asset" ANone;
  if negb (truthy currency) then Return None
  else
    wallet ← py_get asset "walletBalance" (AInt 0);
    total ← py_float wallet;
    available ← py_get asset "availableBalance" (AInt 0);
    free ← py_float available;
    key ← py_key currency;
    Return (Some (key, free, total)).

(** The three writes of lines 83-85. *)
Definition store (res : balance) (key : pykey) (free total : float) : result balance :=
  res ← set_sub (set_entry res key (triple free total)) "free" key free;
  set_sub res "total" key total.

(** The key an asset is filed under, if it is filed. *)
Definition asset_key (asset : json) : option pykey :=
  match asset_record asset with
  | Return (Some (key, _, _)) => Some key
  | _ => None
  end.

End BalanceParts.

(** The shape of every balance the loop passes through: each reference of
    [top] is to a dict of the store, no two keys share a dict, and ['free']
    and ['total'] are references. *)
Record wf (res : balance) : Prop := {
  wf_bound : ∀ k l, top res !! k = Some (VDict l) → l < length (heap res);
  wf_inj : ∀ k1 k2 l,
    top res !! k1 = Some (VDict l) → top res !! k2 = Some (VDict l) → k1 = k2;
  wf_free : ∃ l, top res !! KStr "free" = Some (VDict l);
  wf_total : ∃ l, top res !! KStr "total" = Some (VDict l);
}.

(** ** What a caller can rely on *)

(** A request to the testnet's futures API, certificate checks off. *)
Definition to_testnet (rq : request) : Prop :=
  ssl rq = false ∧ ∃ path, url rq = testnet +:+ "/fapi/" +:+ path.

Section Readable.
Context {py : Builtins}.

(** An asset record the balance loop can read: an object that has no
    symbol, or has a hashable one and balances [float] accepts. *)
Definition readable_asset (asset : json) : Prop :=
  ∃ d, asset = JDict d ∧
    let currency := default (JAtom ANone) (assoc "asset" d) in
    truthy currency = false ∨
    (returns (py_float (default (JAtom (AInt 0)) (assoc "walletBalance" d))) = true ∧
     returns (py_float (default (JAtom (AInt 0)) (assoc "availableBalance" d))) = true ∧
     returns (py_key currency) = true).

(** [float(item[k])] can be evaluated. *)
Definition float_field (d : list (string * json)) (k : string) : Prop :=
  ∃ v f, assoc k d = Some v ∧ py_float v = Return f.

(** A position item the positions loop can read. *)
Definition readable_item (item : json) : Prop :=
  ∃ d, item = JDict d ∧ is_Some (assoc "symbol" d) ∧
       Forall (float_field d) ["positionAmt"; "unRealizedProfit"; "leverage"; "entryPrice"].

End Readable.

(** ** The example script *)

(** [balance.get('USDT', {}).get('total', 0)] of [main] in [example.py],
    on the dict [fetch_balance] returned. *)
Definition main_usdt_total (balance : balance) : result json :=
  match top balance !! KStr "USDT" with
  | Some (VJson data) => py_get data "total" (AInt 0)
  | Some (VDict _) =>
      Return (match entry balance (KStr "USDT") ≫= (.!! KStr "total") with
              | Some total => JAtom (AFloat total)
              | None => JAtom (AInt 0)
              end)
  | None => Return (JAtom (AInt 0))
  end.

(** [len([p for p in positions if p['contracts'] != 0])] of [main]. *)
Definition main_open_positions (positions : list position) : nat :=
  length (filter (λ p, negb (PrimFloat.eqb (contracts p) 0) = true) positions).

(** ** A concrete client for the examples *)

Module Demo.

Definition upper_ascii (c : ascii) : ascii :=
  let n := nat_of_ascii c in
  if (97 <=? n) && (n <=? 122) then ascii_of_nat (n - 32) else c.

Fixpoint upper (s : string) : string :=
  match s with
  | EmptyString => EmptyString
  | String c s' => String (upper_ascii c) (upper s')
  end.

(** [float(s)] on the strings the examples use. *)
Definition floats : list (string * float) :=
  [("100", 100%float); ("40", 40%float); ("5", 5%float); ("1", 1%float);
   ("2.5", 2.5%float); ("-1.0", (-1)%float); ("0", 0%float); ("10", 10%float)].

(** [str(f)] on the floats the examples use. *)
Definition decimals : list (string * float) :=
  [("0.0", 0%float); ("0.5", 0.5%float); ("2.5", 2.5%float); ("100.0", 100%float)].

(** [quote_plus] byte by byte: letters, digits and [_.-~] stay, a space
    becomes [+], any other byte [%XX]. *)
Definition unreserved (c : ascii) : bool :=
  let n := nat_of_ascii c in
  (48 <=? n) && (n <=? 57) || (65 <=? n) && (n <=? 90) || (97 <=? n) && (n <=? 122)
  || (n =? 45) || (n =? 46) || (n =? 95) || (n =? 126).

Definition hex_digit (n : nat) : ascii :=
  if n <? 10 then ascii_of_nat (48 + n) else ascii_of_nat (55 + n).

Definition quote_char (c : ascii) : string :=
  let n := nat_of_ascii c in
  if unreserved c then String c EmptyString
  else if n =? 32 then "+"
  else String "%" (String (hex_digit (n / 16)) (String (hex_digit (n mod 16)) EmptyString)).

Fixpoint quote (s : string) : string :=
  match s with
  | EmptyString => EmptyString
  | String c s' => quote_char c +:+ quote s'
  end.



(** Stand-ins for the built-ins: the two tables, ASCII upper-casing,
    [quote_plus] on bytes, and a tag for the HMAC. *)
Definition builtins : Builtins := {|
  float_of_str s := assoc s floats;
  str_of_float f := default "nan" (fst <$> find (λ sf, PrimFloat.eqb sf.2 f) decimals);
  str_upper := upper;
  quote_plus := quote;
  hmac_sha256_hexdigest key msg := "hmac(" +:+ key +:+ "," +:+ msg +:+ ")";
|}.

(** Built-ins whose digest has the 64 characters of a SHA-256 hex digest:
    the message cut or filled up to that length. *)
Fixpoint fill (n : nat) (s : string) : string :=
  match n with
  | O => EmptyString
  | S n' =>
      match s with
      | EmptyString => String "0" (fill n' EmptyString)
      | String c s' => String c (fill n' s')
      end
  end.

Definition builtins64 : Builtins := {|
  float_of_str s := assoc s floats;
  str_of_float f := default "nan" (fst <$> find (λ sf, PrimFloat.eqb sf.2 f) decimals);
  str_upper := upper;
  quote_plus := quote;
  hmac_sha256_hexdigest key msg := fill 64 msg;
|}.

Record demo_client := {
  demo_key : string;
  demo_secret : string;
  demo_loaded : bool;
}.

(** A stand-in for the request the library loads its markets with. *)
Definition exchange_info : request :=
  {| method := GET; url := "https://testnet.binance.vision/api/v3/exchangeInfo";
     headers := []; ssl := true |}.

Definition ccxt : Ccxt := {|
  client := demo_client;
  market_t := string;
  ticker_t := json;
  order_t := json;
  apiKey := demo_key;
  secret := demo_secret;
  markets := demo_loaded;
  load_markets c _ :=
    {| requests := [exchange_info];
       client_after :=
         {| demo_key := demo_key c; demo_secret := demo_secret c; demo_loaded := true |};
       raised := None |};
  market c symbol :=
    if String.eqb symbol "BTC/USDT:USDT" then Return "BTCUSDT"
    else Raise (LibraryError "BadSymbol");
  market_id m := m;
  parse_ticker _ data _ := Return data;
  parse_order _ data _ := Return data;
|}.

(** A client whose markets are loaded, and one as the factory returns it. *)
Definition me : demo_client :=
  {| demo_key := "key"; demo_secret := "secret"; demo_loaded := true |}.

Definition fresh : demo_client :=
  {| demo_key := "key"; demo_secret := "secret"; demo_loaded := false |}.

(** A world whose exchange answers every request with [r]. *)
Definition world (r : response) : @state ccxt :=
  {| self := me : @client ccxt; clock := 1700000000000; server := λ _, r;
     sent := []; library_sent := []; printed := [] |}.

(** The same world around the client without markets. *)
Definition fresh_world (r : response) : @state ccxt :=
  {| self := fresh : @client ccxt; clock := 1700000000000; server := λ _, r;
     sent := []; library_sent := []; printed := [] |}.

Definition usdt (wallet available : string) : json :=
  JDict [("asset", JAtom (AStr "USDT"));
         ("walletBalance", JAtom (AStr wallet));
         ("availableBalance", JAtom (AStr available))].

Definition account (assets : list json) : json :=
  JDict [("totalWalletBalance", JAtom (AStr "100")); ("assets", JList assets)].

Definition held (symbol amount : string) : json :=
  JDict [("symbol", JAtom (AStr symbol)); ("positionAmt", JAtom (AStr amount));
         ("unRealizedProfit", JAtom (AStr "0")); ("leverage", JAtom (AStr "10"));
         ("entryPrice", JAtom (AStr "100"))].

Abbreviation fetch_balance := (@patched_fetch_balance builtins ccxt).
Abbreviation fetch_ticker := (@patched_fetch_ticker ccxt).
Abbreviation fetch_positions := (@patched_fetch_positions builtins ccxt).
Abbreviation create_order := (@patched_create_order builtins ccxt).

Definition ok (data : json) : response := {| status := 200; body := Some data |}.

Definition denied_body : json :=
  JDict [("code", JAtom (AInt (-2015))); ("msg", JAtom (AStr "Invalid API-key"))].

Definition denied : response := {| status := 401; body := Some denied_body |}.

(** The balance of an account holding 100 USDT, 40 of them available. *)
Definition usdt_balance : balance :=
  returned (empty_balance (JAtom ANone))
    (fetch_balance [] (world (ok (account [usdt "100" "40"])))).2.

(** An asset record without a symbol. *)
Definition dust : json := JDict [("walletBalance", JAtom (AStr "5"))].

Definition three_items : list json :=
  [held "BTCUSDT" "2.5"; held "ETHUSDT" "-1.0"; held "XRPUSDT" "0"].

Definition three_positions : list position :=
  returned [] (fetch_positions (Some ["BTCUSDT"]) [] (world (ok (JList three_items)))).2.

Definition coin (symbol wallet available : string) : json :=
  JDict [("asset", JAtom (AStr symbol));
         ("walletBalance", JAtom (AStr wallet));
         ("availableBalance", JAtom (AStr available))].

Definition two_coins : list json := [coin "USDT" "100" "40"; coin "BNB" "5" "1"].

Definition two_coins_balance : balance :=
  returned (empty_balance (JAtom ANone))
    (balance_of_payload (py := builtins) (account two_coins)).

(** A record whose wallet balance is no number. *)
Definition garbled : json :=
  JDict [("asset", JAtom (AStr "ETH")); ("walletBalance", JAtom (AStr "n/a"))].

(** A position item without its quantity. *)
Definition truncated : json := JDict [("symbol", JAtom (AStr "ETHUSDT"))].

End Demo.

(** * What the methods do *)

(** ** The store of the balance loop *)

Lemma bind_Return {A B : Type} (f : A → result B) (r : result A) (b : B) :
  r ≫= f = Return b → ∃ a, r = Return a ∧ f a = Return b.
Proof. destruct r as [a|e]; [by exists a | done]. Qed.

Lemma triple_free free total : triple free total !! KStr "free" = Some free.
Proof. reflexivity. Qed.

Lemma triple_total free total : triple free total !! KStr "total" = Some total.
Proof. reflexivity. Qed.

Lemma triple_used free total :
  triple free total !! KStr "used" = Some (PrimFloat.sub total free).
Proof. reflexivity. Qed.

Lemma wf_empty_balance data : wf (empty_balance data).
Proof.
  split; simpl.
  - intros k l Hk. repeat (apply lookup_insert_Some in Hk as [[_ Hk]|[_ Hk]]; [simplify_eq; lia|]).
    by rewrite lookup_empty in Hk.
  - intros k1 k2 l H1 H2.
    repeat (apply lookup_insert_Some in H1 as [[<- H1]|[? H1]]);
    repeat (apply lookup_insert_Some in H2 as [[<- H2]|[? H2]]);
    try rewrite lookup_empty in H1; try rewrite lookup_empty in H2; simplify_eq; done.
  - by exists 0.
  - by exists 2.
Qed.

Lemma set_entry_wf res key d : wf res → wf (set_entry res key d).
Proof.
  intros [Hb Hi [lf Hf] [lt Ht]]. split; simpl.
  - intros k l Hk. rewrite length_app. simpl.
    apply lookup_insert_Some in Hk as [[_ ?]|[_ Hk]]; [simplify_eq; lia|].
    apply Hb in Hk. lia.
  - intros k1 k2 l H1 H2.
    apply lookup_insert_Some in H1 as [[<- H1]|[? H1]];
      apply lookup_insert_Some in H2 as [[<- H2]|[? H2]]; simplify_eq; try done.
    + apply Hb in H2. lia.
    + apply Hb in H1. lia.
    + by eapply Hi.
  - destruct (decide (key = KStr "free")) as [->|?].
    + eexists. apply lookup_insert_eq.
    + exists lf. by rewrite lookup_insert_ne.
  - destruct (decide (key = KStr "total")) as [->|?].
    + eexists. apply lookup_insert_eq.
    + exists lt. by rewrite lookup_insert_ne.
Qed.

Lemma set_entry_entry res key d k :
  wf res →
  entry (set_entry res key d) k = if decide (k = key) then Some d else entry res k.
Proof.
  intros [Hb _ _ _]. unfold entry, set_entry. simpl. case_decide as Hk.
  - subst k. rewrite lookup_insert_eq. by rewrite list_lookup_middle.
  - rewrite lookup_insert_ne by done.
    destruct (top res !! k) as [[?|l]|] eqn:Hl; try done.
    apply lookup_app_l. by eapply Hb.
Qed.

Lemma set_sub_Return res name key x l :
  top res !! KStr name = Some (VDict l) →
  set_sub res name key x =
  Return {| top := top res; heap := alter (<[key := x]>) l (heap res) |}.
Proof. intros Hl. unfold set_sub. by rewrite Hl. Qed.

Lemma set_sub_wf res name key x res' :
  wf res → set_sub res name key x = Return res' → wf res'.
Proof.
  intros [Hb Hi Hf Ht]. unfold set_sub.
  destruct (top res !! KStr name) as [[?|l]|]; try done.
  intros [= <-]. split; simpl; try done.
  intros k l' Hk. rewrite length_alter. by eapply Hb.
Qed.

Lemma set_sub_entry res name key x res' k :
  wf res → set_sub res name key x = Return res' →
  entry res' k =
  if decide (k = KStr name) then (<[key := x]>) <$> entry res k else entry res k.
Proof.
  intros [Hb Hi Hf Ht]. unfold set_sub.
  destruct (top res !! KStr name) as [[?|l]|] eqn:Hl; try done.
  intros [= <-]. unfold entry. simpl. case_decide as Hk.
  - subst k. rewrite Hl. apply list_lookup_alter_eq.
  - destruct (top res !! k) as [[?|l']|] eqn:Hl'; try done.
    apply list_lookup_alter_ne. intros ->. apply Hk. by eapply Hi.
Qed.

Lemma store_Return res key free total :
  wf res → ∃ res', store res key free total = Return res'.
Proof.
  intros Hwf. unfold store.
  pose proof (set_entry_wf res key (triple free total) Hwf) as Hwf1.
  destruct (wf_free _ Hwf1) as [lf Hf].
  rewrite (set_sub_Return _ _ _ _ _ Hf). simpl.
  destruct (wf_total _ Hwf1) as [lt Ht].
  erewrite set_sub_Return by exact Ht. eauto.
Qed.

Lemma store_wf res key free total res' :
  wf res → store res key free total = Return res' → wf res'.
Proof.
  intros Hwf Hs. unfold store in Hs.
  apply bind_Return in Hs as (res1 & H1 & H2).
  eapply set_sub_wf; [|exact H2]. eapply set_sub_wf; [|exact H1].
  by apply set_entry_wf.
Qed.

Lemma store_entry res key free total res' k :
  wf res → store res key free total = Return res' →
  entry res' k =
  if decide (k = key) then Some (triple free total)
  else if decide (k = KStr "total") then (<[key := total]>) <$> entry res k
  else if decide (k = KStr "free") then (<[key := free]>) <$> entry res k
  else entry res k.
Proof.
  intros Hwf Hs. unfold store in Hs.
  apply bind_Return in Hs as (res1 & H1 & H2).
  pose proof (set_entry_wf res key (triple free total) Hwf) as Hwf0.
  pose proof (set_sub_wf _ _ _ _ _ Hwf0 H1) as Hwf1.
  rewrite (set_sub_entry _ _ _ _ _ k Hwf1 H2).
  rewrite (set_sub_entry _ _ _ _ _ k Hwf0 H1).
  rewrite (set_entry_entry _ _ _ k Hwf).
  repeat case_decide; by simplify_eq.
Qed.

Section BalanceFacts.
Context {py : Builtins}.

Lemma for_each_app {A S : Type} (body : S → A → result S) s l1 l2 :
  for_each body s (l1 ++ l2) = s' ← for_each body s l1; for_each body s' l2.
Proof.
  revert s. induction l1 as [|x l1 IH]; intros s; simpl; [done|].
  destruct (body s x) as [s'|e]; simpl; [apply IH | done].
Qed.

Lemma balance_step_split res asset :
  balance_step res asset =
  r ← asset_record asset;
  match r with
  | None => Return res
  | Some (key, free, total) => store res key free total
  end.
Proof.
  unfold balance_step, asset_record, store.
  destruct (py_get asset "asset" ANone) as [c|]; simpl; [|done].
  destruct (truthy c); simpl; [|done].
  destruct (py_get asset "walletBalance" (AInt 0)) as [w|]; simpl; [|done].
  destruct (py_float w) as [t|]; simpl; [|done].
  destruct (py_get asset "availableBalance" (AInt 0)) as [a|]; simpl; [|done].
  destruct (py_float a) as [f|]; simpl; [|done].
  by destruct (py_key c).
Qed.

Lemma balance_step_cases res asset res' :
  balance_step res asset = Return res' →
  (asset_record asset = Return None ∧ res' = res) ∨
  (∃ key free total, asset_record asset = Return (Some (key, free, total)) ∧
     store res key free total = Return res').
Proof.
  rewrite balance_step_split. intros Hs.
  apply bind_Return in Hs as ([[[key free] total]|] & Hr & Hs).
  - right. eauto.
  - left. by simplify_eq.
Qed.

Lemma balance_step_wf res asset res' :
  wf res → balance_step res asset = Return res' → wf res'.
Proof.
  intros Hwf Hs. apply balance_step_cases in Hs as [[_ ->]|(k & f & t & _ & Hs)]; [done|].
  by eapply store_wf.
Qed.

Lemma for_each_balance_wf res assets res' :
  wf res → for_each balance_step res assets = Return res' → wf res'.
Proof.
  revert res. induction assets as [|a assets IH]; intros res Hwf Hl; simpl in Hl.
  - by simplify_eq.
  - apply bind_Return in Hl as (res1 & H1 & H2).
    eapply IH; [|exact H2]. by eapply balance_step_wf.
Qed.

(** A step leaves alone every entry but its own and the two sub-mappings. *)
Lemma balance_step_entry res asset res' k :
  wf res → balance_step res asset = Return res' →
  asset_key asset ≠ Some k → k ≠ KStr "free" → k ≠ KStr "total" →
  entry res' k = entry res k.
Proof.
  intros Hwf Hs Hk Hf Ht.
  apply balance_step_cases in Hs as [[_ ->]|(key & f & t & Hr & Hs)]; [done|].
  rewrite (store_entry _ _ _ _ _ k Hwf Hs).
  unfold asset_key in Hk. rewrite Hr in Hk.
  repeat case_decide; by simplify_eq.
Qed.

Lemma for_each_balance_entry res assets res' k :
  wf res → for_each balance_step res assets = Return res' →
  (∀ b, b ∈ assets → asset_key b ≠ Some k) → k ≠ KStr "free" → k ≠ KStr "total" →
  entry res' k = entry res k.
Proof.
  revert res. induction assets as [|a assets IH]; intros res Hwf Hl Hk Hf Ht; simpl in Hl.
  - by simplify_eq.
  - apply bind_Return in Hl as (res1 & H1 & H2).
    rewrite (IH res1); [| by eapply balance_step_wf | done | | done | done].
    + apply (balance_step_entry _ a); [done..| |done|done]. apply Hk. by left.
    + intros b Hb. apply Hk. by right.
Qed.

(** The entry of an asset that no later asset shares its key with. *)
Lemma for_each_balance_last res l1 asset l2 res' key free total :
  wf res → for_each balance_step res (l1 ++ asset :: l2) = Return res' →
  asset_record asset = Return (Some (key, free, total)) →
  (∀ b, b ∈ l2 → asset_key b ≠ Some key) → key ≠ KStr "free" → key ≠ KStr "total" →
  entry res' key = Some (triple free total).
Proof.
  intros Hwf Hl Hr Hk Hf Ht. rewrite for_each_app in Hl.
  apply bind_Return in Hl as (res1 & H1 & H2). simpl in H2.
  apply bind_Return in H2 as (res2 & H2 & H3).
  pose proof (for_each_balance_wf _ _ _ Hwf H1) as Hwf1.
  rewrite (for_each_balance_entry res2 l2 res' key);
    [| by eapply balance_step_wf | done..].
  apply balance_step_cases in H2 as [[? _]|(k' & f' & t' & Hr' & Hs)]; [congruence|].
  rewrite Hr in Hr'. simplify_eq.
  rewrite (store_entry _ _ _ _ _ k' Hwf1 Hs). by rewrite decide_True.
Qed.

Lemma for_each_balance_skip res l1 asset l2 :
  asset_record asset = Return None →
  for_each balance_step res (l1 ++ asset :: l2) = for_each balance_step res (l1 ++ l2).
Proof.
  intros Hr. rewrite !for_each_app.
  destruct (for_each balance_step res l1) as [res1|e]; simpl; [|done].
  rewrite balance_step_split, Hr. done.
Qed.

End BalanceFacts.

(** ** The four calls, unfolded *)

Section MethodFacts.
Context {py : Builtins} {lib : Ccxt}.

Ltac run_io :=
  unfold mbind, io_bind, mret, io_ret, now, get_self, send, response_json, raise, lift,
    print_order_success; simpl.

Lemma fetch_balance_run params st :
  patched_fetch_balance params st =
  let r := server st (account_request (self st) (clock st)) in
  ((send (account_request (self st) (clock st)) st).1,
   match body r with
   | None => Raise DecodeError
   | Some data =>
       if (status r =? 200)%Z then balance_of_payload data
       else Raise (ApiError "Balance fetch" data)
   end).
Proof.
  unfold patched_fetch_balance. run_io.
  destruct (body _) as [data|]; simpl; [|done].
  by destruct (status _ =? 200)%Z.
Qed.

Lemma fetch_positions_run symbols params st :
  patched_fetch_positions symbols params st =
  let r := server st (position_risk_request (self st) symbols params (clock st)) in
  ((send (position_risk_request (self st) symbols params (clock st)) st).1,
   match body r with
   | None => Raise DecodeError
   | Some data =>
       if (status r =? 200)%Z then positions_of_payload data
       else Raise (ApiError "Positions fetch" data)
   end).
Proof.
  unfold patched_fetch_positions. run_io.
  destruct (body _) as [data|]; simpl; [|done].
  by destruct (status _ =? 200)%Z.
Qed.

Lemma fetch_ticker_run symbol params st :
  patched_fetch_ticker symbol params st =
  match ensure_markets st with
  | (st1, Raise e) => (st1, Raise e)
  | (st1, Return _) =>
      match market (self st1) symbol with
      | Raise e => (st1, Raise e)
      | Return m =>
          let r := server st1 (ticker_request m) in
          ((send (ticker_request m) st1).1,
           match body r with
           | None => Raise DecodeError
           | Some data =>
               if (status r =? 200)%Z then parse_ticker (self st1) data m
               else Raise (ApiError "Ticker fetch" data)
           end)
      end
  end.
Proof.
  unfold patched_fetch_ticker. run_io.
  destruct (ensure_markets st) as [st1 [[]|e]]; [|done].
  destruct (market (self st1) symbol) as [m|e]; simpl; [|done].
  destruct (body _) as [data|]; simpl; [|done].
  by destruct (status _ =? 200)%Z.
Qed.

Lemma create_order_run symbol type side amount price params st :
  patched_create_order symbol type side amount price params st =
  match ensure_markets st with
  | (st1, Raise e) => (st1, Raise e)
  | (st1, Return _) =>
      match market (self st1) symbol with
      | Raise e => (st1, Raise e)
      | Return m =>
          let signed :=
            order_params (market_id m) type side amount price params (clock st1) in
          let rq := order_request (self st1) signed in
          let r := server st1 rq in
          match body r with
          | None => ((send rq st1).1, Raise DecodeError)
          | Some data =>
              if (status r =? 200)%Z then
                match py_get data "orderId" ANone with
                | Return order_id =>
                    ((print_order_success order_id (send rq st1).1).1,
                     parse_order (self st1) data m)
                | Raise e => ((send rq st1).1, Raise e)
                end
              else ((send rq st1).1, Raise (ApiError "Order" data))
          end
      end
  end.
Proof.
  unfold patched_create_order. run_io.
  destruct (ensure_markets st) as [st1 [[]|e]]; [|done].
  destruct (market (self st1) symbol) as [m|e]; simpl; [|done].
  destruct (body _) as [data|]; simpl; [|done].
  destruct (status _ =? 200)%Z; simpl; [|done].
  by destruct (py_get data "orderId" ANone).
Qed.

(** Loading the markets touches the client and the library's own log. *)
Lemma ensure_markets_world st st1 r :
  ensure_markets st = (st1, r) →
  clock st1 = clock st ∧ server st1 = server st ∧ sent st1 = sent st ∧
  printed st1 = printed st.
Proof.
  unfold ensure_markets. destruct (markets (self st)); by intros [= <- <-].
Qed.

Lemma ensure_markets_loaded st :
  markets (self st) = true → ensure_markets st = (st, Return ()).
Proof. unfold ensure_markets. by intros ->. Qed.

Lemma ensure_markets_unloaded st :
  markets (self st) = false →
  ensure_markets st =
    let load := load_markets (self st) (server st) in
    ({| self := client_after load; clock := clock st; server := server st;
        sent := sent st; library_sent := library_sent st ++ requests load;
        printed := printed st |},
     Raise (default TypeError (raised load))).
Proof. unfold ensure_markets. by intros ->. Qed.

Lemma not_sent {A : Type} (l : list A) x : l ≠ l ++ [x].
Proof.
  intros Hl. apply (f_equal length) in Hl. rewrite length_app in Hl. simpl in Hl. lia.
Qed.

Lemma run_returned {S A : Type} (fallback : A) (run : S * result A) :
  returns run.2 = true → run = (run.1, Return (returned fallback run.2)).
Proof. by destruct run as [s [a|e]]. Qed.

Lemma result_returned {A : Type} (fallback : A) (r : result A) :
  returns r = true → r = Return (returned fallback r).
Proof. by destruct r. Qed.

End MethodFacts.

(** ** Error propagation *)

Section ErrorFacts.
Context {py : Builtins} {lib : Ccxt}.

Lemma fetch_balance_api_error params :
  raises_api_error (patched_fetch_balance params) "Balance fetch" ∧
  reshapes (patched_fetch_balance params) (λ _ data, balance_of_payload data).
Proof.
  split; intros st st' out rq data; rewrite fetch_balance_run; simpl;
    intros [= <- <-]; simpl; intros [_ <-]%app_inj_tail Hb Hs; rewrite Hb.
  - by apply Z.eqb_neq in Hs as ->.
  - by apply Z.eqb_eq in Hs as ->.
Qed.

Lemma fetch_positions_api_error symbols params :
  raises_api_error (patched_fetch_positions symbols params) "Positions fetch" ∧
  reshapes (patched_fetch_positions symbols params) (λ _ data, positions_of_payload data).
Proof.
  split; intros st st' out rq data; rewrite fetch_positions_run; simpl;
    intros [= <- <-]; simpl; intros [_ <-]%app_inj_tail Hb Hs; rewrite Hb.
  - by apply Z.eqb_neq in Hs as ->.
  - by apply Z.eqb_eq in Hs as ->.
Qed.

(** A call that raised before it sent anything left the log as it was. *)
Ltac nothing_sent Hsent :=
  intros [= <- <-] Hs; rewrite Hsent in Hs; by apply not_sent in Hs.

Lemma fetch_ticker_api_error symbol params :
  raises_api_error (patched_fetch_ticker symbol params) "Ticker fetch" ∧
  reshapes (patched_fetch_ticker symbol params)
    (λ me data, market ← market me symbol; parse_ticker me data market).
Proof.
  split; intros st st' out rq data; rewrite fetch_ticker_run;
    destruct (ensure_markets st) as [st1 [[]|e]] eqn:He;
    apply ensure_markets_world in He as (_ & Hsrv & Hsent & _);
    try nothing_sent Hsent;
    destruct (market (self st1) symbol) as [m|e] eqn:Hm;
    try nothing_sent Hsent;
    simpl; intros [= <- <-]; simpl; rewrite Hsent, Hsrv;
    intros [_ <-]%app_inj_tail Hb Hs; rewrite Hb.
  - by apply Z.eqb_neq in Hs as ->.
  - apply Z.eqb_eq in Hs as ->. by rewrite Hm.
Qed.

Lemma create_order_api_error symbol type side amount price params :
  raises_api_error (patched_create_order symbol type side amount price params) "Order" ∧
  reshapes (patched_create_order symbol type side amount price params)
    (λ me data,
       market ← market me symbol;
       py_get data "orderId" ANone;;
       parse_order me data market).
Proof.
  split; intros st st' out rq data; rewrite create_order_run;
    destruct (ensure_markets st) as [st1 [[]|e]] eqn:He;
    apply ensure_markets_world in He as (Hclk & Hsrv & Hsent & _);
    try nothing_sent Hsent;
    destruct (market (self st1) symbol) as [m|e] eqn:Hm;
    try nothing_sent Hsent;
    simpl; rewrite Hsrv.
  - destruct (body _) as [d|] eqn:Hd.
    + destruct (status _ =? 200)%Z eqn:Hst.
      * destruct (py_get d "orderId" ANone); intros [= <- <-]; simpl; rewrite Hsent;
          intros [_ <-]%app_inj_tail Hb Hs; apply Z.eqb_eq in Hst; congruence.
      * intros [= <- <-]; simpl; rewrite Hsent.
        intros [_ <-]%app_inj_tail Hb Hs. congruence.
    + intros [= <- <-]; simpl; rewrite Hsent.
      intros [_ <-]%app_inj_tail Hb Hs. congruence.
  - destruct (body _) as [d|] eqn:Hd.
    + destruct (status _ =? 200)%Z eqn:Hst.
      * destruct (py_get d "orderId" ANone) eqn:Hid; intros [= <- <-]; simpl;
          rewrite Hsent; intros [_ <-]%app_inj_tail Hb Hs; rewrite Hm; simpl;
          simplify_eq; by rewrite Hid.
      * intros [= <- <-]; simpl; rewrite Hsent.
        intros [_ <-]%app_inj_tail Hb Hs. apply Z.eqb_neq in Hst. congruence.
    + intros [= <- <-]; simpl; rewrite Hsent.
      intros [_ <-]%app_inj_tail Hb Hs. congruence.
Qed.

(** C5, as the code has it.  Each of the four patched operations answers a
    non-200 response whose body decodes with the API error carrying the
    decoded body.  A 200 response is handed to the reshaping code: the
    balance and positions loops, or the library's ticker and order
    parsers.  The operation returns what that code returns and raises what
    it raises; it raises on a payload of another shape. *)
Theorem non_200_raises_api_error params symbol symbols type side amount price :
  (raises_api_error (patched_fetch_balance params) "Balance fetch" ∧
   reshapes (patched_fetch_balance params) (λ _ data, balance_of_payload data)) ∧
  (raises_api_error (patched_fetch_ticker symbol params) "Ticker fetch" ∧
   reshapes (patched_fetch_ticker symbol params)
     (λ me data, market ← market me symbol; parse_ticker me data market)) ∧
  (raises_api_error (patched_fetch_positions symbols params) "Positions fetch" ∧
   reshapes (patched_fetch_positions symbols params)
     (λ _ data, positions_of_payload data)) ∧
  (raises_api_error (patched_create_order symbol type side amount price params) "Order" ∧
   reshapes (patched_create_order symbol type side amount price params)
     (λ me data,
        market ← market me symbol;
        py_get data "orderId" ANone;;
        parse_order me data market)).
Proof.
  split_and!.
  - apply fetch_balance_api_error.
  - apply fetch_balance_api_error.
  - apply fetch_ticker_api_error.
  - apply fetch_ticker_api_error.
  - apply fetch_positions_api_error.
  - apply fetch_positions_api_error.
  - apply create_order_api_error.
  - apply create_order_api_error.
Qed.

End ErrorFacts.

Module ErrorExamples.
Import Demo.

(** C5 at work: the exchange answers 401 with an error document, and each
    of the four operations raises the API error that carries it. *)
Lemma denied_raises_api_error :
  (fetch_balance [] (world denied)).2 = Raise (ApiError "Balance fetch" denied_body) ∧
  (fetch_ticker "BTC/USDT:USDT" [] (world denied)).2
    = Raise (ApiError "Ticker fetch" denied_body) ∧
  (fetch_positions None [] (world denied)).2
    = Raise (ApiError "Positions fetch" denied_body) ∧
  (create_order "BTC/USDT:USDT" "market" "buy" (AInt 1) ANone [] (world denied)).2
    = Raise (ApiError "Order" denied_body).
Proof.
  destruct (non_200_raises_api_error (py := builtins) (lib := ccxt)
              [] "BTC/USDT:USDT" None "market" "buy" (AInt 1) ANone)
    as ([Hb _] & [Ht _] & [Hp _] & [Ho _]).
  split_and!.
  - eapply (Hb (world denied)); [apply surjective_pairing|reflexivity..|discriminate].
  - eapply (Ht (world denied)); [apply surjective_pairing|reflexivity..|discriminate].
  - eapply (Hp (world denied)); [apply surjective_pairing|reflexivity..|discriminate].
  - eapply (Ho (world denied)); [apply surjective_pairing|reflexivity..|discriminate].
Defined.

(** C5 as stated fails: a 200 response does not make the operation return.
    The exchange answers every request with status 200 and the list
    [[{}]]; [item['symbol']] raises [KeyError]. *)
Lemma ok_status_may_raise :
  ¬ ∀ st : @state ccxt,
      (∀ rq, status (server st rq) = 200%Z) →
      returns (fetch_positions None [] st).2 = true.
Proof.
  intros Hc. specialize (Hc (world (ok (JList [JDict []]))) (λ _, eq_refl)).
  vm_compute in Hc. discriminate.
Qed.

Lemma ok_status_key_error :
  (fetch_positions None [] (world (ok (JList [JDict []])))).2 = Raise (KeyError "symbol").
Proof. vm_compute; reflexivity. Qed.

(** A body that is not JSON raises before the status is looked at. *)
Lemma bad_gateway_decode_error :
  (fetch_balance [] (world {| status := 502; body := None |})).2 = Raise DecodeError.
Proof. vm_compute; reflexivity. Qed.

End ErrorExamples.

(** ** Positions *)

Section PositionFacts.
Context {py : Builtins} {lib : Ccxt}.

Lemma positions_of_items_Forall2 items res :
  positions_of_items items = Return res →
  Forall2 (λ item p, position_of_item item = Return p) items res.
Proof.
  revert res. induction items as [|item items IH]; intros res; simpl.
  - intros [= <-]. constructor.
  - intros (p & Hp & Hr)%bind_Return.
    apply bind_Return in Hr as (ps & Hps & [= <-]).
    constructor; [done | by apply IH].
Qed.

Lemma position_of_item_side item p :
  position_of_item item = Return p →
  info p = item ∧
  ∃ positionAmt,
    py_getitem item "positionAmt" ≫= py_float = Return positionAmt ∧
    contracts p = positionAmt ∧
    side p = if PrimFloat.ltb 0 positionAmt then "long" else "short".
Proof.
  unfold position_of_item.
  intros (sym & _ & Hp)%bind_Return.
  apply bind_Return in Hp as (amt & Hamt & Hp).
  apply bind_Return in Hp as (pnl & _ & Hp).
  apply bind_Return in Hp as (lev & _ & Hp).
  apply bind_Return in Hp as (amt' & Hamt' & Hp).
  apply bind_Return in Hp as (price & _ & [= <-]).
  simpl. split; [done|]. exists amt. rewrite Hamt in Hamt'. by simplify_eq.
Qed.

(** Items of the expected shape make the loop return. *)
Lemma positions_of_items_returns items :
  Forall (λ item, returns (position_of_item item) = true) items →
  returns (positions_of_items items) = true.
Proof.
  induction 1 as [|item items Hitem _ IH]; simpl; [done|].
  destruct (position_of_item item); [|done]. simpl.
  by destruct (positions_of_items items).
Qed.

Lemma fetch_positions_returns symbols params st items :
  status (server st (position_risk_request (self st) symbols params (clock st)))
    = 200%Z →
  body (server st (position_risk_request (self st) symbols params (clock st)))
    = Some (JList items) →
  Forall (λ item, returns (position_of_item item) = true) items →
  returns (patched_fetch_positions symbols params st).2 = true.
Proof.
  intros Hs Hb Hall. rewrite fetch_positions_run. simpl. rewrite Hb, Hs. simpl.
  by apply positions_of_items_returns.
Qed.

(** C3.  When [patched_fetch_positions] returns on a response whose body
    is a list, the result has one record per item of the list, in order,
    flat positions included: the record holds the item under [info], the
    float of its [positionAmt] under [contracts], and its side is "long"
    when that float is greater than 0 and "short" otherwise, so at 0 too. *)
Theorem fetch_positions_one_record_per_item symbols params st st' res items :
  patched_fetch_positions symbols params st = (st', Return res) →
  body (server st (position_risk_request (self st) symbols params (clock st)))
    = Some (JList items) →
  Forall2
    (λ item p,
       info p = item ∧
       ∃ positionAmt,
         py_getitem item "positionAmt" ≫= py_float = Return positionAmt ∧
         contracts p = positionAmt ∧
         side p = if PrimFloat.ltb 0 positionAmt then "long" else "short")
    items res.
Proof.
  rewrite fetch_positions_run. simpl. intros [= _ Hout] Hb. rewrite Hb in Hout.
  destruct (status _ =? 200)%Z; [|done].
  apply positions_of_items_Forall2 in Hout.
  eapply Forall2_impl; [exact Hout|]. intros item p. apply position_of_item_side.
Qed.

(** C6.  Whatever the [symbols] argument is, [patched_fetch_positions]
    sends the same signed request and, the world being the same, ends in
    the same state with the same outcome. *)
Theorem fetch_positions_ignores_symbols symbols1 symbols2 params st :
  position_risk_request (self st) symbols1 params (clock st) =
    position_risk_request (self st) symbols2 params (clock st) ∧
  patched_fetch_positions symbols1 params st = patched_fetch_positions symbols2 params st.
Proof. done. Qed.

End PositionFacts.

Module PositionExamples.
Import Demo.

(** Quantities 2.5, -1.0 and 0 give the sides long, short and short. *)
Lemma three_positions_sides :
  side <$> three_positions = ["long"; "short"; "short"] ∧
  contracts <$> three_positions = [2.5%float; (-1)%float; 0%float].
Proof. split; vm_compute; reflexivity. Qed.

(** C3 at work on three positions, one of them flat, with a symbol filter
    that names only the first. *)
Lemma fetch_positions_three_items :
  Forall2
    (λ item p,
       info p = item ∧
       ∃ positionAmt,
         py_getitem item "positionAmt" ≫= @py_float builtins = Return positionAmt ∧
         contracts p = positionAmt ∧
         side p = if PrimFloat.ltb 0 positionAmt then "long" else "short")
    three_items three_positions.
Proof.
  apply (fetch_positions_one_record_per_item (py := builtins) (lib := ccxt)
           (Some ["BTCUSDT"]) [] (world (ok (JList three_items)))
           (fetch_positions (Some ["BTCUSDT"]) [] (world (ok (JList three_items)))).1).
  - apply run_returned. vm_compute; reflexivity.
  - reflexivity.
Defined.

End PositionExamples.

(** ** Order parameters *)

Section OrderFacts.
Context {py : Builtins} {lib : Ccxt}.

Lemma assoc_od_set k v d k' :
  assoc k' (od_set k v d) = if String.eqb k' k then Some v else assoc k' d.
Proof.
  induction d as [|[k0 v0] d IH]; simpl.
  - done.
  - destruct (String.eqb k k0) eqn:E; simpl.
    + apply String.eqb_eq in E as ->. by destruct (String.eqb k' k0).
    + rewrite IH. destruct (String.eqb k' k0) eqn:E'; [|done].
      apply String.eqb_eq in E' as ->. by rewrite String.eqb_sym, E.
Qed.

Lemma od_set_fresh k v d : od_mem k d = false → od_set k v d = d ++ [(k, v)].
Proof.
  unfold od_mem. induction d as [|[k0 v0] d IH]; simpl; [done|].
  destruct (String.eqb k k0); [done|]. intros Hd. by rewrite IH.
Qed.

Lemma merge_params_assoc order params k :
  assoc k (merge_params order params) =
  match assoc k order with Some v => Some v | None => assoc k params end.
Proof.
  revert order. induction params as [|[key value] rest IH]; intros order; simpl.
  - by destruct (assoc k order).
  - unfold od_mem. destruct (assoc key order) eqn:Ho; rewrite IH.
    + destruct (String.eqb k key) eqn:E; [|done].
      apply String.eqb_eq in E as ->. by rewrite Ho.
    + rewrite assoc_od_set. destruct (String.eqb k key) eqn:E; [|done].
      apply String.eqb_eq in E as ->. by rewrite Ho.
Qed.

Lemma merge_params_extends order params :
  ∃ extra, merge_params order params = order ++ extra.
Proof.
  revert order. induction params as [|[key value] rest IH]; intros order; simpl.
  - exists []. by rewrite app_nil_r.
  - destruct (od_mem key order) eqn:Hm; [apply IH|].
    destruct (IH (od_set key value order)) as [extra ->].
    rewrite od_set_fresh by done. rewrite <- app_assoc. eauto.
Qed.

Lemma assoc_is_Some {V : Type} (k : string) (d : list (string * V)) :
  is_Some (assoc k d) ↔ k ∈ d.*1.
Proof.
  induction d as [|[k' v] d IH]; simpl.
  - split; [by intros []%is_Some_None | by intros ?%elem_of_nil].
  - rewrite elem_of_cons. destruct (String.eqb k k') eqn:E.
    + apply String.eqb_eq in E as ->. split; [by left|eauto].
    + apply String.eqb_neq in E. rewrite IH. split; [by right|]. by intros [?|?].
Qed.

Lemma od_mem_false k (d : odict) : od_mem k d = false ↔ k ∉ d.*1.
Proof.
  rewrite <- assoc_is_Some. unfold od_mem. destruct (assoc k d) as [v|].
  - split; [done|]. intros Hn. destruct Hn. eauto.
  - split; [|done]. intros _ Hn. by apply is_Some_None in Hn.
Qed.

Lemma merge_params_keys_NoDup order params :
  NoDup order.*1 → NoDup (merge_params order params).*1.
Proof.
  revert order. induction params as [|[key value] rest IH]; intros order Hnd; simpl; [done|].
  apply IH. destruct (od_mem key order) eqn:Hm; [done|].
  rewrite od_set_fresh by done. rewrite fmap_app. simpl.
  apply NoDup_app. split_and!; [done| |apply NoDup_singleton].
  intros k Hk ->%list_elem_of_singleton. by apply od_mem_false in Hm.
Qed.

Lemma required_params_keys id type side amount price params timestamp :
  (required_params id type side amount price params timestamp).*1 =
  ["symbol"; "side"; "type"; "quantity"; "timestamp"; "recvWindow"] ++
  if atom_truthy price && String.eqb (str_upper type) "LIMIT"
  then ["price"; "timeInForce"] else [].
Proof.
  unfold required_params.
  by destruct (atom_truthy price && String.eqb (str_upper type) "LIMIT").
Qed.

Lemma required_params_NoDup id type side amount price params timestamp :
  NoDup (required_params id type side amount price params timestamp).*1.
Proof.
  rewrite required_params_keys.
  destruct (atom_truthy price && String.eqb (str_upper type) "LIMIT"); simpl;
    apply (bool_decide_unpack _); by vm_compute.
Qed.

(** In a dict every key has one entry, the one lookup finds. *)
Lemma assoc_NoDup {V : Type} (d : list (string * V)) k v :
  NoDup d.*1 → (k, v) ∈ d → assoc k d = Some v.
Proof.
  induction d as [|[k' v'] d IH]; simpl; [by intros _ ?%elem_of_nil|].
  intros [Hk Hd]%NoDup_cons [[= -> ->]|Hin]%elem_of_cons.
  - by rewrite String.eqb_refl.
  - destruct (String.eqb k k') eqn:E; [|by apply IH].
    apply String.eqb_eq in E as ->. destruct Hk.
    apply list_elem_of_fmap. by exists (k', v).
Qed.

Lemma od_mem_app_fresh (order : odict) key value k :
  k ≠ key → od_mem k (order ++ [(key, value)]) = od_mem k order.
Proof.
  intros Hne. unfold od_mem. induction order as [|[k' v'] order IH]; simpl.
  - by apply String.eqb_neq in Hne as ->.
  - by destruct (String.eqb k k').
Qed.

Lemma filter_absent_ext (order : odict) key value (rest : odict) :
  key ∉ rest.*1 →
  filter (λ kv, negb (od_mem kv.1 (order ++ [(key, value)]))) rest =
  filter (λ kv, negb (od_mem kv.1 order)) rest.
Proof.
  induction rest as [|[k v] rest IH]; [done|]. simpl.
  intros [Hne Hrest]%not_elem_of_cons. rewrite !filter_cons. simpl.
  rewrite od_mem_app_fresh by done. by rewrite IH.
Qed.

(** The merge loop on a dict: the caller's entries under fresh keys go
    behind [order_params], in the caller's order, and no other entry does. *)
Lemma merge_params_filter order params :
  NoDup params.*1 →
  merge_params order params =
  order ++ filter (λ kv, negb (od_mem kv.1 order)) params.
Proof.
  revert order. induction params as [|[key value] rest IH]; intros order; simpl.
  - by rewrite app_nil_r.
  - intros [Hkey Hrest]%NoDup_cons. rewrite filter_cons. simpl.
    destruct (od_mem key order) eqn:Hm; simpl.
    + by apply IH.
    + rewrite IH by done. rewrite od_set_fresh by done.
      rewrite filter_absent_ext by done. by rewrite <- app_assoc.
Qed.

(** C4.  The parameters [patched_create_order] signs are the required ones
    with the caller's merged behind them.  A key of the required set has
    one entry in the signed set, and it holds the required value.  What
    the merge adds has no key twice; each entry it adds is the caller's,
    under a key the required set does not have.  For a caller's dict the
    signed set is the required set followed by the caller's entries under
    such keys, and nothing else. *)
Theorem create_order_required_wins id type side amount price params timestamp :
  let required := required_params id type side amount price params timestamp in
  let signed := order_params id type side amount price params timestamp in
  (∀ key value, assoc key required = Some value →
     assoc key signed = Some value ∧
     ∀ value', (key, value') ∈ signed → value' = value) ∧
  (∀ key, assoc key required = None → assoc key signed = assoc key params) ∧
  (∃ extra, signed = required ++ extra ∧ NoDup extra.*1 ∧
     ∀ key value, (key, value) ∈ extra →
       assoc key required = None ∧ assoc key params = Some value) ∧
  (NoDup params.*1 →
   signed = required ++ filter (λ kv, negb (od_mem kv.1 required)) params).
Proof.
  intros required signed.
  assert (Hnd : NoDup signed.*1).
  { apply merge_params_keys_NoDup, required_params_NoDup. }
  assert (Hlook : ∀ key, assoc key signed =
            match assoc key required with Some v => Some v | None => assoc key params end).
  { intros key. apply merge_params_assoc. }
  split_and!.
  - intros key value Hk. rewrite Hlook, Hk. split; [done|].
    intros value' Hin. apply (assoc_NoDup _ _ _ Hnd) in Hin.
    rewrite Hlook, Hk in Hin. by injection Hin.
  - intros key Hk. by rewrite Hlook, Hk.
  - destruct (merge_params_extends required params) as [extra Hextra].
    change (signed = required ++ extra) in Hextra. exists extra. split; [done|].
    pose proof Hnd as Hparts. rewrite Hextra, fmap_app in Hparts.
    apply NoDup_app in Hparts as (_ & Hfresh & Hextras).
    split; [done|]. intros key value Hin.
    assert (assoc key required = None) as Hreq.
    { destruct (assoc key required) as [v|] eqn:Hv; [|done].
      exfalso. apply (Hfresh key).
      - apply assoc_is_Some. rewrite Hv. eauto.
      - apply list_elem_of_fmap. by exists (key, value). }
    split; [done|]. specialize (Hlook key). rewrite Hreq in Hlook. rewrite <- Hlook.
    apply assoc_NoDup; [done|]. rewrite Hextra. apply elem_of_app. by right.
  - intros Hparams. by apply merge_params_filter.
Qed.

(** C7, as the code has it.  Before the caller's parameters are merged,
    the parameter set holds the market identifier, the upper-cased side and
    type, the stringified quantity, the timestamp and the receive window
    60000.  It holds the stringified price and a time in force, the
    caller's [timeInForce] or else "GTC", exactly when the price is truthy
    and the upper-cased type is LIMIT. *)
Theorem required_params_fields id type side amount price params timestamp :
  let required := required_params id type side amount price params timestamp in
  assoc "symbol" required = Some (AStr id) ∧
  assoc "side" required = Some (AStr (str_upper side)) ∧
  assoc "type" required = Some (AStr (str_upper type)) ∧
  assoc "quantity" required = Some (AStr (py_str amount)) ∧
  assoc "timestamp" required = Some (AInt timestamp) ∧
  assoc "recvWindow" required = Some (AInt 60000) ∧
  if atom_truthy price && String.eqb (str_upper type) "LIMIT" then
    assoc "price" required = Some (AStr (py_str price)) ∧
    assoc "timeInForce" required =
      Some (default (AStr "GTC") (assoc "timeInForce" params))
  else
    assoc "price" required = None ∧ assoc "timeInForce" required = None.
Proof.
  unfold required_params.
  destruct (atom_truthy price && String.eqb (str_upper type) "LIMIT"); simpl;
    by split_and!.
Qed.

(** C10.  A falsy price is no price: the call does what it does with
    [price=None].  Whatever the type, the price branch adds neither a
    price nor a time in force, and the signed set has these two keys only
    as the caller's own parameters have them. *)
Theorem create_order_falsy_price_is_absent symbol type side amount price params st :
  atom_truthy price = false →
  patched_create_order symbol type side amount price params st =
    patched_create_order symbol type side amount ANone params st ∧
  ∀ id timestamp,
    let required := required_params id type side amount price params timestamp in
    let signed := order_params id type side amount price params timestamp in
    assoc "price" required = None ∧ assoc "timeInForce" required = None ∧
    assoc "price" signed = assoc "price" params ∧
    assoc "timeInForce" signed = assoc "timeInForce" params.
Proof.
  intros Hp.
  assert (Hreq : ∀ id timestamp,
    required_params id type side amount price params timestamp =
    required_params id type side amount ANone params timestamp).
  { intros. unfold required_params. by rewrite Hp. }
  split.
  - rewrite !create_order_run.
    destruct (ensure_markets st) as [st1 [[]|e]]; [|done].
    destruct (market (self st1) symbol) as [m|e]; [|done].
    unfold order_params. by rewrite Hreq.
  - intros id timestamp required signed. unfold signed, order_params.
    rewrite !merge_params_assoc. fold required. unfold required, required_params.
    rewrite Hp. done.
Qed.

End OrderFacts.

Module OrderExamples.
Import Demo.

(** C4 at work: the caller's own timestamp loses to the clock's, and is
    not signed beside it. *)
Lemma create_order_timestamp_wins :
  let signed :=
    order_params (py := builtins) "BTCUSDT" "market" "buy" (AInt 1) ANone
      [("timestamp", AInt 1); ("reduceOnly", AStr "true")] 1700000000000 in
  assoc "timestamp" signed = Some (AInt 1700000000000) ∧
  ∀ value', ("timestamp", value') ∈ signed → value' = AInt 1700000000000.
Proof.
  destruct (create_order_required_wins (py := builtins) "BTCUSDT" "market" "buy"
              (AInt 1) ANone [("timestamp", AInt 1); ("reduceOnly", AStr "true")]
              1700000000000)
    as (Hwins & _).
  apply Hwins. reflexivity.
Defined.

(** The signed set of that order, in the order [urlencode] walks it. *)
Lemma create_order_timestamp_signed :
  order_params (py := builtins) "BTCUSDT" "market" "buy" (AInt 1) ANone
    [("timestamp", AInt 1); ("reduceOnly", AStr "true")] 1700000000000
  = [("symbol", AStr "BTCUSDT"); ("side", AStr "BUY"); ("type", AStr "MARKET");
     ("quantity", AStr "1"); ("timestamp", AInt 1700000000000);
     ("recvWindow", AInt 60000); ("reduceOnly", AStr "true")].
Proof. vm_compute; reflexivity. Qed.

(** C7 as stated fails: the price 0 is supplied and the type is LIMIT, and
    no price is in the parameter set. *)
Lemma price_zero_is_dropped :
  AInt 0 ≠ ANone ∧ str_upper (Builtins := builtins) "limit" = "LIMIT" ∧
  assoc "price"
    (required_params (py := builtins) "BTCUSDT" "limit" "buy" (AInt 1) (AInt 0) []
       1700000000000) = None ∧
  assoc "timeInForce"
    (required_params (py := builtins) "BTCUSDT" "limit" "buy" (AInt 1) (AInt 0) []
       1700000000000) = None.
Proof. split_and!; [discriminate | reflexivity..]. Qed.

(** A LIMIT order with a price has both. *)
Lemma limit_order_has_price :
  required_params (py := builtins) "BTCUSDT" "limit" "buy" (AInt 1) (AInt 100)
    [("timeInForce", AStr "IOC")] 1700000000000
  = [("symbol", AStr "BTCUSDT"); ("side", AStr "BUY"); ("type", AStr "LIMIT");
     ("quantity", AStr "1"); ("timestamp", AInt 1700000000000);
     ("recvWindow", AInt 60000); ("price", AStr "100"); ("timeInForce", AStr "IOC")].
Proof. vm_compute; reflexivity. Qed.

(** C10 at work: a LIMIT order at price 0 is the order without a price. *)
Lemma create_order_price_zero :
  create_order "BTC/USDT:USDT" "limit" "buy" (AInt 1) (AInt 0) []
    (world (ok (JDict [("orderId", JAtom (AInt 7))]))) =
  create_order "BTC/USDT:USDT" "limit" "buy" (AInt 1) ANone []
    (world (ok (JDict [("orderId", JAtom (AInt 7))]))).
Proof.
  apply (create_order_falsy_price_is_absent (py := builtins) (lib := ccxt)). reflexivity.
Defined.

End OrderExamples.

(** ** Signatures *)





Section SigningFacts.
Context {py : Builtins} {lib : Ccxt}.







End SigningFacts.

(** *** Digests of one length *)




Module SigningExamples.
Import Demo.







(** Digests of 64 characters there are. *)
Lemma fill_length n s : String.length (fill n s) = n.
Proof.
  revert s. induction n as [|n IH]; intros s; simpl; [done|].
  destruct s; simpl; by rewrite IH.
Qed.

Lemma digest_of_64_characters key msg :
  String.length (hmac_sha256_hexdigest (Builtins := builtins64) key msg) = 64%nat.
Proof. apply fill_length. Qed.

(** Values that differ in Python and not on the wire are one parameter as
    sent: [{'leverage': 1}] and [{'leverage': '1'}] are both signed as
    [leverage=1], whatever the built-ins are. *)
Lemma equal_renderings_sign_alike :
  ¬ ∃ py : Builtins, ∀ (key : string) (params1 params2 : odict),
      (∃ k, assoc k params1 ≠ assoc k params2) →
      sign key (urlencode params1) ≠ sign key (urlencode params2).
Proof.
  intros [py Hpy].
  apply (Hpy "secret" [("leverage", AInt 1)] [("leverage", AStr "1")]).
  - exists "leverage". discriminate.
  - reflexivity.
Qed.

(** The URL of a balance fetch, with the stand-in for the HMAC. *)
Lemma account_request_url :
  url (account_request (py := builtins) (lib := ccxt) me 1700000000000) =
  "https://testnet.binancefuture.com/fapi/v2/account?timestamp=1700000000000&recvWindow=60000&signature=hmac(secret,timestamp=1700000000000&recvWindow=60000)".
Proof. vm_compute; reflexivity. Qed.

End SigningExamples.

(** ** The balance *)

Section BalanceClaims.
Context {py : Builtins} {lib : Ccxt}.

Lemma py_key_str x c : py_key x = Return (KStr c) → x = JAtom (AStr c).
Proof.
  destruct x as [[| | | f |s]| |]; simpl; try done.
  - by destruct (integral (Prim2SF f)).
  - by intros [= ->].
Qed.

Lemma asset_key_str asset c :
  asset_key asset = Some (KStr c) → py_get asset "asset" ANone = Return (JAtom (AStr c)).
Proof.
  unfold asset_key, asset_record.
  destruct (py_get asset "asset" ANone) as [cur|]; simpl; [|done].
  destruct (truthy cur); simpl; [|done].
  destruct (py_get asset "walletBalance" (AInt 0)) as [w|]; simpl; [|done].
  destruct (py_float w) as [t|]; simpl; [|done].
  destruct (py_get asset "availableBalance" (AInt 0)) as [a|]; simpl; [|done].
  destruct (py_float a) as [f|]; simpl; [|done].
  destruct (py_key cur) as [k|] eqn:Hk; simpl; [|done].
  intros [= ->]. by apply py_key_str in Hk as ->.
Qed.

Lemma fetch_balance_Return params st st' res data :
  patched_fetch_balance params st = (st', Return res) →
  body (server st (account_request (self st) (clock st))) = Some data →
  status (server st (account_request (self st) (clock st))) = 200%Z ∧
  balance_of_payload data = Return res.
Proof.
  rewrite fetch_balance_run. simpl. intros [= _ Hout] Hb. rewrite Hb in Hout.
  destruct (status _ =? 200)%Z eqn:Hs; [|done]. by apply Z.eqb_eq in Hs.
Qed.

Lemma balance_of_payload_assets data assets :
  py_get data "assets" (JList []) = Return (JList assets) →
  balance_of_payload data = for_each balance_step (empty_balance data) assets.
Proof. intros Ha. unfold balance_of_payload. by rewrite Ha. Qed.

(** Records that can be read make the loop return: the writes never fail. *)
Lemma for_each_balance_returns res assets :
  wf res → Forall (λ asset, returns (asset_record asset) = true) assets →
  returns (for_each balance_step res assets) = true.
Proof.
  intros Hwf Hall. revert res Hwf.
  induction Hall as [|asset assets Hasset _ IH]; intros res Hwf; simpl; [done|].
  destruct (balance_step res asset) as [res1|e] eqn:Hstep; simpl.
  - apply IH. by eapply balance_step_wf.
  - rewrite balance_step_split in Hstep.
    destruct (asset_record asset) as [[[[key free] total]|]|]; simpl in *; try done.
    destruct (store_Return res key free total Hwf) as [res' Hres']. congruence.
Qed.

Lemma fetch_balance_returns params st data assets :
  status (server st (account_request (self st) (clock st))) = 200%Z →
  body (server st (account_request (self st) (clock st))) = Some data →
  py_get data "assets" (JList []) = Return (JList assets) →
  Forall (λ asset, returns (asset_record asset) = true) assets →
  returns (patched_fetch_balance params st).2 = true.
Proof.
  intros Hs Hb Ha Hall. rewrite fetch_balance_run. simpl. rewrite Hb, Hs. simpl.
  rewrite (balance_of_payload_assets _ _ Ha).
  apply for_each_balance_returns; [apply wf_empty_balance | done].
Qed.

(** The loop has no [result['used'][currency] = ...]: unless an asset is
    itself called "used", [result['used']] stays [{}]. *)
Lemma fetch_balance_used_stays_empty data assets res :
  py_get data "assets" (JList []) = Return (JList assets) →
  balance_of_payload data = Return res →
  (∀ asset, asset ∈ assets → py_get asset "asset" ANone ≠ Return (JAtom (AStr "used"))) →
  entry res (KStr "used") = Some ∅.
Proof.
  intros Ha Hres Hu. rewrite (balance_of_payload_assets _ _ Ha) in Hres.
  rewrite (for_each_balance_entry _ _ _ (KStr "used") (wf_empty_balance data) Hres);
    [done| |done..].
  intros b Hb Hk. by apply asset_key_str, Hu in Hk.
Qed.

(** C2.  When [patched_fetch_balance] returns, take any asset record of
    the response that has a symbol.  The entry the loop writes for it is
    [{'free': availableBalance, 'used': walletBalance - availableBalance,
    'total': walletBalance}] in floats, a missing balance counting as 0 and
    the subtraction unguarded.  It is the entry of the returned balance
    too, unless a later record has the same symbol and takes its place, or
    the symbol is "free" or "total", the names of the sub-mappings. *)
Theorem fetch_balance_derivation params st st' res data l1 d l2 c :
  patched_fetch_balance params st = (st', Return res) →
  body (server st (account_request (self st) (clock st))) = Some data →
  py_get data "assets" (JList []) = Return (JList (l1 ++ JDict d :: l2)) →
  assoc "asset" d = Some (JAtom (AStr c)) → c ≠ "" →
  ∃ walletBalance availableBalance,
    py_float (default (JAtom (AInt 0)) (assoc "walletBalance" d)) = Return walletBalance ∧
    py_float (default (JAtom (AInt 0)) (assoc "availableBalance" d))
      = Return availableBalance ∧
    let written :=
      <[KStr "total" := walletBalance]>
        (<[KStr "used" := PrimFloat.sub walletBalance availableBalance]>
          (<[KStr "free" := availableBalance]> ∅)) in
    (∃ before after,
       for_each balance_step (empty_balance data) l1 = Return before ∧
       balance_step before (JDict d) = Return after ∧
       entry after (KStr c) = Some written) ∧
    (c ≠ "free" → c ≠ "total" →
     (∀ later, later ∈ l2 → py_get later "asset" ANone ≠ Return (JAtom (AStr c))) →
     entry res (KStr c) = Some written).
Proof.
  intros Hrun Hb Ha Hc Hne.
  destruct (fetch_balance_Return _ _ _ _ _ Hrun Hb) as [_ Hres].
  rewrite (balance_of_payload_assets _ _ Ha) in Hres.
  pose proof Hres as Hloop. rewrite for_each_app in Hloop.
  apply bind_Return in Hloop as (before & Hbefore & Hloop). simpl in Hloop.
  apply bind_Return in Hloop as (after & Hstep & _).
  pose proof (for_each_balance_wf _ _ _ (wf_empty_balance data) Hbefore) as Hwf.
  assert (Hcur : String.eqb c "" = false) by by apply String.eqb_neq.
  pose proof Hstep as Hcases.
  apply balance_step_cases in Hcases as [[Hr _]|(key & free & total & Hr & Hs)];
    pose proof Hr as Hr'; unfold asset_record in Hr'; simpl in Hr';
    rewrite Hc in Hr'; simpl in Hr'; rewrite Hcur in Hr'; simpl in Hr';
    destruct (py_float (default (JAtom (AInt 0)) (assoc "walletBalance" d)))
      as [w|]; simpl in Hr'; try done;
    destruct (py_float (default (JAtom (AInt 0)) (assoc "availableBalance" d)))
      as [a|]; simpl in Hr'; try done.
  simplify_eq. exists total, free. do 2 (split; [done|]). intros written. split.
  - exists before, after. do 2 (split; [done|]).
    rewrite (store_entry _ _ _ _ _ (KStr c) Hwf Hs). by rewrite decide_True.
  - intros Hf Ht Hlast.
    apply (for_each_balance_last _ _ _ _ _ _ _ _ (wf_empty_balance data) Hres Hr);
      [|congruence..].
    intros b Hb' Hk. by apply asset_key_str, Hlast in Hk.
Qed.

(** C9.  An asset record whose [asset] field is missing, empty or
    otherwise falsy changes nothing: the balance is the one of the
    response without that record, all other records processed as they
    are. *)
Theorem fetch_balance_skips_unnamed data l1 d l2 :
  py_get data "assets" (JList []) = Return (JList (l1 ++ JDict d :: l2)) →
  truthy (default (JAtom ANone) (assoc "asset" d)) = false →
  (∀ res, balance_step res (JDict d) = Return res) ∧
  balance_of_payload data = for_each balance_step (empty_balance data) (l1 ++ l2).
Proof.
  intros Ha Hc.
  assert (Hr : asset_record (JDict d) = Return None).
  { unfold asset_record. simpl. by rewrite Hc. }
  split.
  - intros res. by rewrite balance_step_split, Hr.
  - rewrite (balance_of_payload_assets _ _ Ha). by apply for_each_balance_skip.
Qed.

End BalanceClaims.

Module BalanceExamples.
Import Demo.

Lemma usdt_balance_returned :
  (fetch_balance [] (world (ok (account [usdt "100" "40"])))).2 = Return usdt_balance.
Proof. apply result_returned. vm_compute; reflexivity. Qed.

(** C2 at work: walletBalance 100 and availableBalance 40 give free 40,
    used 60 and total 100. *)
Lemma fetch_balance_derivation_USDT :
  entry usdt_balance (KStr "USDT") =
    Some (<[KStr "total" := 100%float]>
           (<[KStr "used" := 60%float]> (<[KStr "free" := 40%float]> ∅))).
Proof.
  destruct (fetch_balance_derivation (py := builtins) (lib := ccxt) []
              (world (ok (account [usdt "100" "40"])))
              (fetch_balance [] (world (ok (account [usdt "100" "40"])))).1
              usdt_balance (account [usdt "100" "40"]) []
              [("asset", JAtom (AStr "USDT")); ("walletBalance", JAtom (AStr "100"));
               ("availableBalance", JAtom (AStr "40"))] [] "USDT")
    as (w & a & Hw & Ha & _ & He).
  - apply run_returned. vm_compute; reflexivity.
  - reflexivity.
  - reflexivity.
  - reflexivity.
  - discriminate.
  - vm_compute in Hw, Ha. injection Hw as <-. injection Ha as <-.
    apply He; [discriminate..|].
    intros later Hl. by apply elem_of_nil in Hl.
Defined.

(** More available than in the wallet: [used] is negative. *)
Lemma fetch_balance_negative_used :
  entry (returned usdt_balance
           (fetch_balance [] (world (ok (account [usdt "40" "100"])))).2) (KStr "USDT")
    ≫= (.!! KStr "used")
  = Some (-60)%float.
Proof. vm_compute; reflexivity. Qed.

(** C1 at the failing input: an account with one asset, USDT.  The free
    and total sub-mappings are keyed by USDT, the used one is empty. *)
Lemma fetch_balance_used_is_empty_USDT :
  (fetch_balance [] (world (ok (account [usdt "100" "40"])))).2 = Return usdt_balance ∧
  entry usdt_balance (KStr "used") = Some ∅ ∧
  map_to_list <$> entry usdt_balance (KStr "free") = Some [(KStr "USDT", 40%float)] ∧
  map_to_list <$> entry usdt_balance (KStr "total") = Some [(KStr "USDT", 100%float)] ∧
  top usdt_balance !! KStr "info" = Some (VJson (account [usdt "100" "40"])).
Proof.
  split_and!.
  - exact usdt_balance_returned.
  - apply (fetch_balance_used_stays_empty (py := builtins)
             (account [usdt "100" "40"]) [usdt "100" "40"]);
      [done | exact usdt_balance_returned |].
    intros asset ->%list_elem_of_singleton. discriminate.
  - vm_compute; reflexivity.
  - vm_compute; reflexivity.
  - vm_compute; reflexivity.
Qed.

(** C9 at work: the record without a symbol, between two USDT records. *)
Lemma unnamed_asset_is_skipped :
  balance_of_payload (py := builtins) (account [usdt "100" "40"; dust; usdt "5" "1"]) =
  for_each (balance_step (py := builtins))
    (empty_balance (account [usdt "100" "40"; dust; usdt "5" "1"]))
    [usdt "100" "40"; usdt "5" "1"].
Proof.
  apply (fetch_balance_skips_unnamed (py := builtins)
           (account [usdt "100" "40"; dust; usdt "5" "1"])
           [usdt "100" "40"] [("walletBalance", JAtom (AStr "5"))] [usdt "5" "1"]);
    reflexivity.
Defined.

End BalanceExamples.

(** * Beyond the claims *)

(** ** The shape of the balance *)

Section BalanceShape.
Context {py : Builtins} {lib : Ccxt}.

Lemma set_sub_top res name key x res' :
  set_sub res name key x = Return res' → top res' = top res.
Proof.
  unfold set_sub. destruct (top res !! KStr name) as [[?|l]|]; try done.
  by intros [= <-].
Qed.

Lemma store_top res key free total res' :
  store res key free total = Return res' →
  top res' = <[key := VDict (length (heap res))]> (top res).
Proof.
  unfold store. intros (res1 & H1 & H2)%bind_Return.
  apply set_sub_top in H1, H2. by rewrite H2, H1.
Qed.

Lemma asset_key_Some asset key free total :
  asset_record asset = Return (Some (key, free, total)) → asset_key asset = Some key.
Proof. intros Hr. unfold asset_key. by rewrite Hr. Qed.

Lemma asset_key_None asset : asset_record asset = Return None → asset_key asset = None.
Proof. intros Hr. unfold asset_key. by rewrite Hr. Qed.

(** The top-level keys after the loop: those it started with and the keys
    of the assets it filed. *)
Lemma for_each_balance_top res assets res' k :
  for_each balance_step res assets = Return res' →
  (is_Some (top res' !! k) ↔
   is_Some (top res !! k) ∨ ∃ asset, asset ∈ assets ∧ asset_key asset = Some k) ∧
  ((∀ asset, asset ∈ assets → asset_key asset ≠ Some k) → top res' !! k = top res !! k).
Proof.
  revert res. induction assets as [|a assets IH]; intros res Hl; simpl in Hl.
  - simplify_eq. split; [|done]. split; [by left|]. by intros [?|(?&[]%elem_of_nil&_)].
  - apply bind_Return in Hl as (res1 & H1 & H2).
    destruct (IH _ H2) as [IH1 IH2].
    apply balance_step_cases in H1 as [[Hr ->]|(key & f & t & Hr & Hs)].
    + apply asset_key_None in Hr. split.
      * rewrite IH1. split.
        -- intros [?|(b & Hb & Hk)]; [by left|]. right. exists b. split; [by right|done].
        -- intros [?|(b & [->|Hb]%elem_of_cons & Hk)]; [by left|congruence|right; eauto].
      * intros Hk. apply IH2. intros b Hb. apply Hk. by right.
    + apply store_top in Hs. apply asset_key_Some in Hr. split.
      * rewrite IH1, Hs, lookup_insert_is_Some. split.
        -- intros [[->|[_ ?]]|(b & Hb & Hk)].
           ++ right. exists a. split; [by left|done].
           ++ by left.
           ++ right. exists b. split; [by right|done].
        -- intros [Hk|(b & [->|Hb]%elem_of_cons & Hk)].
           ++ left. destruct (decide (key = k)); [by left|by right].
           ++ left. left. congruence.
           ++ right. eauto.
      * intros Hk. rewrite IH2; [|intros b Hb; apply Hk; by right].
        rewrite Hs. apply lookup_insert_ne. intros ->. apply (Hk a); [by left|done].
Qed.

(** The loop keeps the two sub-mappings in step with the entries. *)
Lemma for_each_balance_agree res assets res' mf mt :
  wf res → for_each balance_step res assets = Return res' →
  (∀ asset, asset ∈ assets →
     asset_key asset ≠ Some (KStr "free") ∧ asset_key asset ≠ Some (KStr "total")) →
  entry res (KStr "free") = Some mf → entry res (KStr "total") = Some mt →
  (∀ k, is_Some (mf !! k) ↔ is_Some (mt !! k)) →
  (∀ k, is_Some (mf !! k) → k ≠ KStr "free" ∧ k ≠ KStr "total") →
  (∀ k f t, mf !! k = Some f → mt !! k = Some t → entry res k = Some (triple f t)) →
  ∃ mf' mt',
    entry res' (KStr "free") = Some mf' ∧ entry res' (KStr "total") = Some mt' ∧
    (∀ k, is_Some (mf' !! k) ↔ is_Some (mt' !! k)) ∧
    (∀ k, is_Some (mf' !! k) ↔
          is_Some (mf !! k) ∨ ∃ asset, asset ∈ assets ∧ asset_key asset = Some k) ∧
    (∀ k f t, mf' !! k = Some f → mt' !! k = Some t → entry res' k = Some (triple f t)).
Proof.
  revert res mf mt.
  induction assets as [|a assets IH]; intros res mf mt Hwf Hl Hkeys Hf Ht Hdom Hres Hag;
    simpl in Hl.
  - simplify_eq. exists mf, mt. split_and!; try done.
    intros k. split; [by left|]. by intros [?|(?&[]%elem_of_nil&_)].
  - apply bind_Return in Hl as (res1 & H1 & H2).
    pose proof (balance_step_wf _ _ _ Hwf H1) as Hwf1.
    assert (Hrest : ∀ asset, asset ∈ assets →
      asset_key asset ≠ Some (KStr "free") ∧ asset_key asset ≠ Some (KStr "total"))
      by (intros b Hb; apply Hkeys; by right).
    apply balance_step_cases in H1 as [[Hr ->]|(key & f & t & Hr & Hs)].
    + apply asset_key_None in Hr.
      destruct (IH _ _ _ Hwf1 H2 Hrest Hf Ht Hdom Hres Hag)
        as (mf' & mt' & Hf' & Ht' & Hdom' & Hin & Hag').
      exists mf', mt'. split_and!; try done.
      intros k. rewrite Hin. split.
      * intros [?|(b & Hb & Hk)]; [by left|]. right. exists b. split; [by right|done].
      * intros [?|(b & [->|Hb]%elem_of_cons & Hk)]; [by left|congruence|right; eauto].
    + apply asset_key_Some in Hr.
      destruct (Hkeys a) as [Hkf Hkt]; [by left|]. rewrite Hr in Hkf, Hkt.
      assert (key ≠ KStr "free") as Hnf by congruence.
      assert (key ≠ KStr "total") as Hnt by congruence.
      pose proof (store_entry _ _ _ _ _ (KStr "free") Hwf Hs) as Hf1.
      pose proof (store_entry _ _ _ _ _ (KStr "total") Hwf Hs) as Ht1.
      rewrite decide_False, decide_False, decide_True, Hf in Hf1 by done.
      rewrite decide_False, decide_True, Ht in Ht1 by done.
      simpl in Hf1, Ht1.
      destruct (IH res1 (<[key:=f]> mf) (<[key:=t]> mt) Hwf1 H2 Hrest Hf1 Ht1)
        as (mf' & mt' & Hf' & Ht' & Hdom' & Hin & Hag').
      * intros k. rewrite !lookup_insert_is_Some. by rewrite Hdom.
      * intros k [->|[_ Hk]]%lookup_insert_is_Some; [done|]. by apply Hres.
      * intros k f0 t0 Hkf0 Hkt0.
        rewrite (store_entry _ _ _ _ _ k Hwf Hs).
        destruct (decide (k = key)) as [->|Hne].
        -- rewrite lookup_insert_eq in Hkf0, Hkt0. by simplify_eq.
        -- rewrite lookup_insert_ne in Hkf0, Hkt0 by done.
           destruct (Hres k) as [? ?]; [by eauto|].
           rewrite decide_False, decide_False by done. by eapply Hag.
      * exists mf', mt'. split_and!; try done.
        intros k. rewrite Hin, lookup_insert_is_Some. split.
        -- intros [[->|[_ ?]]|(b & Hb & Hk)].
           ++ right. exists a. split; [by left|done].
           ++ by left.
           ++ right. exists b. split; [by right|done].
        -- intros [Hk|(b & [->|Hb]%elem_of_cons & Hk)].
           ++ left. destruct (decide (key = k)); [by left|by right].
           ++ left. left. congruence.
           ++ right. eauto.
Qed.

Lemma asset_named_key asset c :
  py_get asset "asset" ANone ≠ Return (JAtom (AStr c)) → asset_key asset ≠ Some (KStr c).
Proof. intros Hn Hk. by apply asset_key_str in Hk. Qed.

Lemma top_empty_balance data k :
  is_Some (top (empty_balance data) !! k) ↔
  k ∈ [KStr "info"; KStr "free"; KStr "used"; KStr "total"].
Proof.
  unfold empty_balance. simpl. rewrite !lookup_insert_is_Some, lookup_empty.
  rewrite !elem_of_cons, elem_of_nil. split.
  - intros [<-|[_ [<-|[_ [<-|[_ [<-|[_ []%is_Some_None]]]]]]]]; tauto.
  - intros [->|[->|[->|[->|[]]]]].
    + do 3 (right; split; [done|]). by left.
    + do 2 (right; split; [done|]). by left.
    + right; split; [done|]. by left.
    + by left.
Qed.

(** X1.  In a returned balance of a response with no asset called "free"
    or "total", the ['free'] and ['total'] sub-mappings have the same keys,
    namely the keys the assets were filed under, and each key's entry at
    the top level is the triple of the two numbers the sub-mappings hold
    for it. *)
Theorem balance_sub_mappings_agree data assets res :
  py_get data "assets" (JList []) = Return (JList assets) →
  balance_of_payload data = Return res →
  (∀ asset, asset ∈ assets →
     py_get asset "asset" ANone ≠ Return (JAtom (AStr "free")) ∧
     py_get asset "asset" ANone ≠ Return (JAtom (AStr "total"))) →
  ∃ free total,
    entry res (KStr "free") = Some free ∧ entry res (KStr "total") = Some total ∧
    (∀ k, is_Some (free !! k) ↔ is_Some (total !! k)) ∧
    (∀ k, is_Some (free !! k) ↔ ∃ asset, asset ∈ assets ∧ asset_key asset = Some k) ∧
    (∀ k f t, free !! k = Some f → total !! k = Some t →
       entry res k =
         Some (<[KStr "total" := t]>
                (<[KStr "used" := PrimFloat.sub t f]> (<[KStr "free" := f]> ∅)))).
Proof.
  intros Ha Hres Hnames. rewrite (balance_of_payload_assets _ _ Ha) in Hres.
  assert (Hkeys : ∀ asset, asset ∈ assets →
    asset_key asset ≠ Some (KStr "free") ∧ asset_key asset ≠ Some (KStr "total")).
  { intros asset Hasset. destruct (Hnames asset Hasset). split; by apply asset_named_key. }
  assert (Hnone : ∀ k : pykey, ¬ is_Some ((∅ : gmap pykey float) !! k)).
  { intros k [? Hk]. by rewrite lookup_empty in Hk. }
  destruct (for_each_balance_agree _ _ _ ∅ ∅ (wf_empty_balance data) Hres Hkeys)
    as (mf & mt & Hf & Ht & Hdom & Hin & Hag).
  - done.
  - done.
  - done.
  - intros k Hk. by apply Hnone in Hk.
  - intros k f t Hk. by rewrite lookup_empty in Hk.
  - exists mf, mt. do 3 (split; [done|]). split; [|done].
    intros k. rewrite Hin. split; [|by right].
    intros [Hk|?]; [by apply Hnone in Hk|done].
Qed.

(** X2.  The top-level keys of a returned balance are ['info'], ['free'],
    ['used'], ['total'] and the keys the assets were filed under, nothing
    else; and ['info'] still holds the payload unless an asset is itself
    called "info". *)
Theorem balance_top_level_keys data assets res :
  py_get data "assets" (JList []) = Return (JList assets) →
  balance_of_payload data = Return res →
  (∀ k, is_Some (top res !! k) ↔
        k ∈ [KStr "info"; KStr "free"; KStr "used"; KStr "total"] ∨
        ∃ asset, asset ∈ assets ∧ asset_key asset = Some k) ∧
  ((∀ asset, asset ∈ assets →
      py_get asset "asset" ANone ≠ Return (JAtom (AStr "info"))) →
   top res !! KStr "info" = Some (VJson data)).
Proof.
  intros Ha Hres. rewrite (balance_of_payload_assets _ _ Ha) in Hres. split.
  - intros k. destruct (for_each_balance_top _ _ _ k Hres) as [-> _].
    by rewrite top_empty_balance.
  - intros Hinfo. destruct (for_each_balance_top _ _ _ (KStr "info") Hres) as [_ Htop].
    rewrite Htop; [done|].
    intros asset Hasset. by apply asset_named_key, Hinfo.
Qed.

Lemma asset_record_returns asset :
  returns (asset_record asset) = true ↔ readable_asset asset.
Proof.
  unfold readable_asset. destruct asset as [a|l|d].
  1,2: split; [done|]; by intros (d & ? & _).
  unfold asset_record. simpl.
  destruct (truthy (default (JAtom ANone) (assoc "asset" d))) eqn:Hc; simpl.
  2: { split; [|done]. intros _. exists d. split; [done|]. by left. }
  destruct (py_float (default (JAtom (AInt 0)) (assoc "walletBalance" d))) as [w|] eqn:Hw;
    simpl.
  2: { split; [done|]. intros (d' & [= <-] & [?|(Hw' & _)]); [congruence|].
       by rewrite Hw in Hw'. }
  destruct (py_float (default (JAtom (AInt 0)) (assoc "availableBalance" d)))
    as [a|] eqn:Ha; simpl.
  2: { split; [done|]. intros (d' & [= <-] & [?|(_ & Ha' & _)]); [congruence|].
       by rewrite Ha in Ha'. }
  destruct (py_key (default (JAtom ANone) (assoc "asset" d))) as [k|] eqn:Hk; simpl.
  2: { split; [done|]. intros (d' & [= <-] & [?|(_ & _ & Hk')]); [congruence|].
       by rewrite Hk in Hk'. }
  split; [|done]. intros _. exists d. split; [done|]. right.
  by rewrite Hw, Ha, Hk.
Qed.

Lemma for_each_balance_returns_inv res assets :
  wf res → returns (for_each balance_step res assets) = true →
  Forall (λ asset, returns (asset_record asset) = true) assets.
Proof.
  revert res. induction assets as [|a assets IH]; intros res Hwf Hr; [constructor|].
  simpl in Hr. destruct (balance_step res a) as [res1|e] eqn:Hs; [|done].
  constructor.
  - apply balance_step_cases in Hs as [[-> _]|(k & f & t & -> & _)]; done.
  - eapply IH; [|exact Hr]. by eapply balance_step_wf.
Qed.

(** X3.  On a 200 response whose [assets] is a list, [patched_fetch_balance]
    returns exactly when every record of the list can be read: no partial
    balance is ever returned. *)
Theorem fetch_balance_returns_iff params st data assets :
  status (server st (account_request (self st) (clock st))) = 200%Z →
  body (server st (account_request (self st) (clock st))) = Some data →
  py_get data "assets" (JList []) = Return (JList assets) →
  returns (patched_fetch_balance params st).2 = true ↔ Forall readable_asset assets.
Proof.
  intros Hs Hb Ha.
  rewrite <- (Forall_iff (λ asset, returns (asset_record asset) = true))
    by apply asset_record_returns.
  split; [|by eapply fetch_balance_returns].
  rewrite fetch_balance_run. simpl. rewrite Hb, Hs. simpl.
  rewrite (balance_of_payload_assets _ _ Ha).
  apply for_each_balance_returns_inv, wf_empty_balance.
Qed.

(** X4.  The exception of [patched_fetch_balance] on a 200 response is the
    one of the first record that cannot be read, whatever comes after it. *)
Theorem fetch_balance_first_unreadable params st data readable bad rest e :
  status (server st (account_request (self st) (clock st))) = 200%Z →
  body (server st (account_request (self st) (clock st))) = Some data →
  py_get data "assets" (JList []) = Return (JList (readable ++ bad :: rest)) →
  Forall readable_asset readable →
  asset_record bad = Raise e →
  (patched_fetch_balance params st).2 = Raise e.
Proof.
  intros Hs Hb Ha Hall Hbad. rewrite fetch_balance_run. simpl. rewrite Hb, Hs. simpl.
  rewrite (balance_of_payload_assets _ _ Ha), for_each_app.
  rewrite <- (Forall_iff (λ asset, returns (asset_record asset) = true)) in Hall
    by apply asset_record_returns.
  pose proof (for_each_balance_returns _ _ (wf_empty_balance data) Hall) as Hr.
  destruct (for_each balance_step (empty_balance data) readable) as [res1|]; [|done].
  simpl. by rewrite balance_step_split, Hbad.
Qed.

(** X5.  A payload that is an object without an [assets] key, an error
    document for one, gives the empty balance and no error; [assets: null]
    raises [TypeError], and a payload that is no object [AttributeError]. *)
Theorem balance_of_payload_edges data :
  (∀ d, data = JDict d → assoc "assets" d = None →
        balance_of_payload data = Return (empty_balance data)) ∧
  (∀ d, data = JDict d → assoc "assets" d = Some (JAtom ANone) →
        balance_of_payload data = Raise TypeError) ∧
  ((∀ d, data ≠ JDict d) → balance_of_payload data = Raise AttributeError).
Proof.
  split_and!.
  - intros d -> Hd. unfold balance_of_payload. simpl. by rewrite Hd.
  - intros d -> Hd. unfold balance_of_payload. simpl. by rewrite Hd.
  - intros Hd. destruct data as [a|l|d]; [done..|]. by destruct (Hd d).
Qed.

(** X6.  What [main] of [example.py] reads as the USDT total: 0 when the
    response has no USDT record, and the float of the [walletBalance] of
    the last USDT record when it has one. *)
Theorem main_usdt_total_spec data assets res :
  py_get data "assets" (JList []) = Return (JList assets) →
  balance_of_payload data = Return res →
  ((∀ asset, asset ∈ assets →
      py_get asset "asset" ANone ≠ Return (JAtom (AStr "USDT"))) →
   main_usdt_total res = Return (JAtom (AInt 0))) ∧
  (∀ l1 d l2 total,
     assets = l1 ++ JDict d :: l2 →
     assoc "asset" d = Some (JAtom (AStr "USDT")) →
     py_float (default (JAtom (AInt 0)) (assoc "walletBalance" d)) = Return total →
     (∀ later, later ∈ l2 →
        py_get later "asset" ANone ≠ Return (JAtom (AStr "USDT"))) →
     main_usdt_total res = Return (JAtom (AFloat total))).
Proof.
  intros Ha Hres. rewrite (balance_of_payload_assets _ _ Ha) in Hres. split.
  - intros Hno. unfold main_usdt_total.
    destruct (for_each_balance_top _ _ _ (KStr "USDT") Hres) as [_ Htop].
    rewrite Htop; [done|].
    intros asset Hasset. by apply asset_named_key, Hno.
  - intros l1 d l2 total -> Hd Hw Hlast.
    assert (Hall : Forall (λ asset, returns (asset_record asset) = true)
                     (l1 ++ JDict d :: l2)).
    { apply (for_each_balance_returns_inv (empty_balance data)); [apply wf_empty_balance|].
      by rewrite Hres. }
    apply Forall_app in Hall as [_ Hall]. apply Forall_cons in Hall as [Hrec _].
    unfold asset_record in Hrec. simpl in Hrec. rewrite Hd in Hrec. simpl in Hrec.
    rewrite Hw in Hrec. simpl in Hrec.
    destruct (py_float (default (JAtom (AInt 0)) (assoc "availableBalance" d)))
      as [free|] eqn:Hfree; [|done].
    assert (Hr : asset_record (JDict d) = Return (Some (KStr "USDT", free, total))).
    { unfold asset_record. simpl. rewrite Hd. simpl. by rewrite Hw, Hfree. }
    assert (He : entry res (KStr "USDT") = Some (triple free total)).
    { apply (for_each_balance_last _ _ _ _ _ _ _ _ (wf_empty_balance data) Hres Hr);
        [|done..].
      intros b Hb. by apply asset_named_key, Hlast. }
    unfold main_usdt_total. pose proof He as Htop. unfold entry in Htop.
    destruct (top res !! KStr "USDT") as [[?|l]|]; try done.
    by rewrite He.
Qed.

End BalanceShape.

Module BalanceShapeExamples.
Import Demo.

Lemma two_coins_returned :
  balance_of_payload (py := builtins) (account two_coins) = Return two_coins_balance.
Proof. apply result_returned. vm_compute; reflexivity. Qed.

(** None of the listed assets has the symbol the goal names. *)
Ltac other_symbols :=
  intros ? Hin; repeat (apply elem_of_cons in Hin as [->|Hin]);
  [..|by apply elem_of_nil in Hin]; repeat split; discriminate.

(** X1 at work on an account with USDT and BNB. *)
Lemma two_coins_agree :
  ∃ free total,
    entry two_coins_balance (KStr "free") = Some free ∧
    entry two_coins_balance (KStr "total") = Some total ∧
    (∀ k, is_Some (free !! k) ↔ is_Some (total !! k)) ∧
    (∀ k, is_Some (free !! k) ↔
          ∃ asset, asset ∈ two_coins ∧ asset_key (py := builtins) asset = Some k) ∧
    (∀ k f t, free !! k = Some f → total !! k = Some t →
       entry two_coins_balance k =
         Some (<[KStr "total" := t]>
                (<[KStr "used" := PrimFloat.sub t f]> (<[KStr "free" := f]> ∅)))).
Proof.
  apply (balance_sub_mappings_agree (py := builtins) (account two_coins) two_coins).
  - reflexivity.
  - exact two_coins_returned.
  - other_symbols.
Defined.

(** The two sub-mappings of that account. *)
Lemma two_coins_sub_mappings :
  map_to_list <$> entry two_coins_balance (KStr "free")
    = Some [(KStr "USDT", 40%float); (KStr "BNB", 1%float)] ∧
  map_to_list <$> entry two_coins_balance (KStr "total")
    = Some [(KStr "USDT", 100%float); (KStr "BNB", 5%float)].
Proof. split; vm_compute; reflexivity. Qed.

(** X2 at work on the same account. *)
Lemma two_coins_keys :
  (∀ k, is_Some (top two_coins_balance !! k) ↔
        k ∈ [KStr "info"; KStr "free"; KStr "used"; KStr "total"] ∨
        ∃ asset, asset ∈ two_coins ∧ asset_key (py := builtins) asset = Some k) ∧
  ((∀ asset, asset ∈ two_coins →
      py_get asset "asset" ANone ≠ Return (JAtom (AStr "info"))) →
   top two_coins_balance !! KStr "info" = Some (VJson (account two_coins))).
Proof.
  apply (balance_top_level_keys (py := builtins) (account two_coins) two_coins).
  - reflexivity.
  - exact two_coins_returned.
Defined.

(** X3 at work on the same account. *)
Lemma two_coins_readable :
  returns (fetch_balance [] (world (ok (account two_coins)))).2 = true ↔
  Forall (readable_asset (py := builtins)) two_coins.
Proof.
  by apply (fetch_balance_returns_iff (py := builtins) (lib := ccxt) []
              (world (ok (account two_coins))) (account two_coins) two_coins).
Defined.

(** X4 at work: the ETH record has no number for a balance, and the call
    raises the [ValueError] of [float]. *)
Lemma garbled_record_raises :
  (fetch_balance []
     (world (ok (account [coin "USDT" "100" "40"; garbled; coin "BNB" "5" "1"])))).2
  = Raise ValueError.
Proof.
  apply (fetch_balance_first_unreadable (py := builtins) (lib := ccxt) []
           (world (ok (account [coin "USDT" "100" "40"; garbled; coin "BNB" "5" "1"])))
           (account [coin "USDT" "100" "40"; garbled; coin "BNB" "5" "1"])
           [coin "USDT" "100" "40"] garbled [coin "BNB" "5" "1"] ValueError).
  - reflexivity.
  - reflexivity.
  - reflexivity.
  - constructor; [|constructor]. eexists. split; [reflexivity|]. right.
    split_and!; vm_compute; reflexivity.
  - vm_compute; reflexivity.
Defined.

(** X6 at work: [main] reads 100.0 as the USDT total. *)
Lemma two_coins_usdt_total :
  main_usdt_total two_coins_balance = Return (JAtom (AFloat 100)).
Proof.
  destruct (main_usdt_total_spec (py := builtins) (account two_coins) two_coins
              two_coins_balance eq_refl two_coins_returned) as [_ Hlast].
  apply (Hlast [] [("asset", JAtom (AStr "USDT")); ("walletBalance", JAtom (AStr "100"));
                   ("availableBalance", JAtom (AStr "40"))] [coin "BNB" "5" "1"]).
  - reflexivity.
  - reflexivity.
  - vm_compute; reflexivity.
  - other_symbols.
Defined.

End BalanceShapeExamples.

(** ** Reading positions *)

Section PositionShape.
Context {py : Builtins} {lib : Ccxt}.

Lemma float_field_returns d k :
  returns (py_getitem (JDict d) k ≫= py_float) = true ↔ float_field d k.
Proof.
  unfold float_field. simpl. destruct (assoc k d) as [v|]; simpl.
  - destruct (py_float v) as [f|] eqn:Hf; simpl.
    + split; [eauto|done].
    + split; [done|]. intros (v' & f & [= <-] & Hv). congruence.
  - split; [done|]. by intros (v & f & ? & _).
Qed.

Lemma position_of_dict_returns d :
  returns (position_of_item (JDict d)) = true ↔
  is_Some (assoc "symbol" d) ∧
  Forall (float_field d) ["positionAmt"; "unRealizedProfit"; "leverage"; "entryPrice"].
Proof.
  rewrite !Forall_cons, Forall_nil. rewrite <- !float_field_returns.
  unfold position_of_item. simpl.
  destruct (assoc "symbol" d) as [sym|]; simpl.
  2: { split; [done|]. by intros [[]%is_Some_None _]. }
  destruct (assoc "positionAmt" d) as [v1|]; simpl; [|by intuition].
  destruct (py_float v1) as [f1|]; simpl; [|by intuition].
  destruct (assoc "unRealizedProfit" d) as [v2|]; simpl; [|by intuition].
  destruct (py_float v2) as [f2|]; simpl; [|by intuition].
  destruct (assoc "leverage" d) as [v3|]; simpl; [|by intuition].
  destruct (py_float v3) as [f3|]; simpl; [|by intuition].
  destruct (assoc "entryPrice" d) as [v4|]; simpl; [|by intuition].
  destruct (py_float v4) as [f4|]; simpl; [|by intuition].
  split; [|done]. intros _. split_and!; eauto.
Qed.

Lemma position_of_item_returns item :
  returns (position_of_item item) = true ↔ readable_item item.
Proof.
  unfold readable_item. destruct item as [a|l|d].
  1,2: split; [done|]; by intros (d & ? & _).
  rewrite position_of_dict_returns. split; [by exists d|]. by intros (d' & [= <-] & ?).
Qed.

Lemma positions_of_items_returns_inv items :
  returns (positions_of_items items) = true →
  Forall (λ item, returns (position_of_item item) = true) items.
Proof.
  induction items as [|item items IH]; [constructor|]. simpl.
  destruct (position_of_item item) as [p|] eqn:Hp; [|done]. simpl.
  destruct (positions_of_items items) as [ps|] eqn:Hps; [|done]. intros _.
  constructor; [by rewrite Hp | by apply IH].
Qed.

Lemma positions_of_items_cons item rest :
  positions_of_items (item :: rest) =
  p ← position_of_item item; ps ← positions_of_items rest; Return (p :: ps).
Proof. done. Qed.

Lemma positions_of_items_raise good bad rest e :
  Forall (λ item, returns (position_of_item item) = true) good →
  position_of_item bad = Raise e →
  positions_of_items (good ++ bad :: rest) = Raise e.
Proof.
  intros Hall Hbad. induction Hall as [|item good Hitem _ IH].
  - rewrite app_nil_l, positions_of_items_cons. by rewrite Hbad.
  - rewrite <- app_comm_cons, positions_of_items_cons, IH.
    by destruct (position_of_item item).
Qed.

(** X7.  On a 200 response that is a list, [patched_fetch_positions]
    returns exactly when every item is an object with a [symbol] and with
    [positionAmt], [unRealizedProfit], [leverage] and [entryPrice] that
    [float] accepts. *)
Theorem fetch_positions_returns_iff symbols params st items :
  status (server st (position_risk_request (self st) symbols params (clock st)))
    = 200%Z →
  body (server st (position_risk_request (self st) symbols params (clock st)))
    = Some (JList items) →
  returns (patched_fetch_positions symbols params st).2 = true ↔
  Forall readable_item items.
Proof.
  intros Hs Hb.
  rewrite <- (Forall_iff (λ item, returns (position_of_item item) = true))
    by apply position_of_item_returns.
  rewrite fetch_positions_run. simpl. rewrite Hb, Hs. simpl.
  split; [apply positions_of_items_returns_inv | apply positions_of_items_returns].
Qed.

(** X8.  The exception of [patched_fetch_positions] on a 200 list is the
    one of the first item that cannot be read; the positions read before
    it are not returned. *)
Theorem fetch_positions_first_unreadable symbols params st good bad rest e :
  status (server st (position_risk_request (self st) symbols params (clock st)))
    = 200%Z →
  body (server st (position_risk_request (self st) symbols params (clock st)))
    = Some (JList (good ++ bad :: rest)) →
  Forall readable_item good →
  position_of_item bad = Raise e →
  (patched_fetch_positions symbols params st).2 = Raise e.
Proof.
  intros Hs Hb Hall Hbad. rewrite fetch_positions_run. simpl. rewrite Hb, Hs.
  rewrite <- (Forall_iff (λ item, returns (position_of_item item) = true)) in Hall
    by apply position_of_item_returns.
  by apply positions_of_items_raise.
Qed.

(** X9.  An item is read in the order symbol, positionAmt,
    unRealizedProfit, leverage, entryPrice: when the fields before [k] are
    there and readable and [k] is missing, the exception is [KeyError(k)]. *)
Theorem position_of_item_missing_field d before k after :
  ["symbol"; "positionAmt"; "unRealizedProfit"; "leverage"; "entryPrice"]
    = before ++ k :: after →
  Forall (λ k', is_Some (assoc k' d) ∧ (k' ≠ "symbol" → float_field d k')) before →
  assoc k d = None →
  position_of_item (JDict d) = Raise (KeyError k).
Proof.
  intros Hkeys Hbefore Hk. unfold position_of_item. simpl.
  destruct before as [|k0 before]; simplify_eq/=; [by rewrite Hk|].
  apply Forall_cons in Hbefore as [[[sym ->] _] Hbefore]. simpl.
  destruct before as [|k1 before]; simplify_eq/=; [by rewrite Hk|].
  apply Forall_cons in Hbefore as [[_ Hff1] Hbefore].
  destruct (Hff1 ltac:(done)) as (v1 & f1 & Hv1 & Hf1).
  rewrite Hv1; simpl; rewrite Hf1; simpl.
  destruct before as [|k2 before]; simplify_eq/=; [by rewrite Hk|].
  apply Forall_cons in Hbefore as [[_ Hff2] Hbefore].
  destruct (Hff2 ltac:(done)) as (v2 & f2 & Hv2 & Hf2).
  rewrite Hv2; simpl; rewrite Hf2; simpl.
  destruct before as [|k3 before]; simplify_eq/=; [by rewrite Hk|].
  apply Forall_cons in Hbefore as [[_ Hff3] Hbefore].
  destruct (Hff3 ltac:(done)) as (v3 & f3 & Hv3 & Hf3).
  rewrite Hv3; simpl; rewrite Hf3; simpl.
  destruct before as [|k4 before]; simplify_eq/=; [by rewrite Hk|].
  by destruct before.
Qed.

(** X10.  Each returned record holds the item's [symbol] as it came and
    the floats of its [unRealizedProfit], [leverage] and [entryPrice]. *)
Theorem fetch_positions_fields symbols params st st' res items :
  patched_fetch_positions symbols params st = (st', Return res) →
  body (server st (position_risk_request (self st) symbols params (clock st)))
    = Some (JList items) →
  Forall2
    (λ item p,
       py_getitem item "symbol" = Return (symbol p) ∧
       py_getitem item "unRealizedProfit" ≫= py_float = Return (unrealizedPnl p) ∧
       py_getitem item "leverage" ≫= py_float = Return (leverage p) ∧
       py_getitem item "entryPrice" ≫= py_float = Return (entryPrice p))
    items res.
Proof.
  rewrite fetch_positions_run. simpl. intros [= _ Hout] Hb. rewrite Hb in Hout.
  destruct (status _ =? 200)%Z; [|done].
  apply positions_of_items_Forall2 in Hout.
  eapply Forall2_impl; [exact Hout|]. intros item p. unfold position_of_item.
  intros (sym & Hsym & Hp)%bind_Return.
  apply bind_Return in Hp as (amt & _ & Hp).
  apply bind_Return in Hp as (pnl & Hpnl & Hp).
  apply bind_Return in Hp as (lev & Hlev & Hp).
  apply bind_Return in Hp as (amt' & _ & Hp).
  apply bind_Return in Hp as (price & Hprice & [= <-]). done.
Qed.

(** X11.  A 200 payload that is no list: an object with a key, an error
    document for one, raises [TypeError], since the loop walks its keys;
    the empty object gives no positions; a scalar that is no string raises
    [TypeError]. *)
Theorem positions_of_payload_not_a_list data :
  (∀ k v d, data = JDict ((k, v) :: d) → positions_of_payload data = Raise TypeError) ∧
  (data = JDict [] → positions_of_payload data = Return []) ∧
  (∀ a, data = JAtom a → (∀ s, a ≠ AStr s) → positions_of_payload data = Raise TypeError).
Proof.
  split_and!.
  - by intros k v d ->.
  - by intros ->.
  - intros a -> Ha. destruct a; try done. by destruct (Ha s).
Qed.

(** A float greater than 0 is not equal to 0. *)
Lemma ltb_0_not_eqb x : PrimFloat.ltb 0 x = true → PrimFloat.eqb x 0 = false.
Proof.
  intros Hx. rewrite FloatAxioms.ltb_spec in Hx. rewrite FloatAxioms.eqb_spec. revert Hx.
  unfold SFltb, SFeqb. change (Prim2SF 0) with (S754_zero false).
  destruct (Prim2SF x) as [s|s| |s m e]; simpl; try done.
  - by destruct s.
  - by destruct s.
Qed.

Lemma open_positions_cons p ps :
  main_open_positions (p :: ps) =
  ((if PrimFloat.eqb (contracts p) 0 then 0 else 1) + main_open_positions ps)%nat.
Proof.
  unfold main_open_positions. rewrite filter_cons.
  by destruct (PrimFloat.eqb (contracts p) 0).
Qed.

Lemma fetch_positions_sides symbols params st st' res items :
  patched_fetch_positions symbols params st = (st', Return res) →
  body (server st (position_risk_request (self st) symbols params (clock st)))
    = Some (JList items) →
  length res = length items ∧
  Forall (λ p, side p = if PrimFloat.ltb 0 (contracts p) then "long" else "short") res.
Proof.
  rewrite fetch_positions_run. simpl. intros [= _ Hout] Hb. rewrite Hb in Hout.
  destruct (status _ =? 200)%Z; [|done].
  apply positions_of_items_Forall2 in Hout. split.
  - symmetry. by eapply Forall2_length.
  - clear Hb. induction Hout as [|item p items res Hp _ IH]; constructor; [|done].
    apply position_of_item_side in Hp as (_ & amt & _ & <- & ->). done.
Qed.

(** X12.  The open positions [main] of [example.py] counts, those with
    [contracts != 0], are at least the long ones and at most the items of
    the response; a flat position has the side "short" and is not counted. *)
Theorem main_open_positions_spec symbols params st st' res items :
  patched_fetch_positions symbols params st = (st', Return res) →
  body (server st (position_risk_request (self st) symbols params (clock st)))
    = Some (JList items) →
  (length (filter (λ p, side p = "long") res) ≤ main_open_positions res
     ≤ length items)%nat ∧
  (∀ p, p ∈ res → PrimFloat.eqb (contracts p) 0 = true →
        side p = "short" ∧ main_open_positions [p] = 0%nat).
Proof.
  intros Hrun Hb. destruct (fetch_positions_sides _ _ _ _ _ _ Hrun Hb) as [<- Hsides].
  clear Hrun Hb. split.
  - induction Hsides as [|p res Hp _ IH]; [done|].
    rewrite open_positions_cons, filter_cons. simpl.
    destruct (PrimFloat.ltb 0 (contracts p)) eqn:Hlt.
    + rewrite (ltb_0_not_eqb _ Hlt), decide_True by done. simpl. lia.
    + rewrite decide_False by (by rewrite Hp).
      destruct (PrimFloat.eqb (contracts p) 0); lia.
  - intros p Hin Hz. rewrite Forall_forall in Hsides. rewrite (Hsides p Hin).
    rewrite open_positions_cons, Hz. split; [|done].
    destruct (PrimFloat.ltb 0 (contracts p)) eqn:Hlt; [|done].
    apply ltb_0_not_eqb in Hlt. congruence.
Qed.

End PositionShape.

Module PositionShapeExamples.
Import Demo.

Lemma three_positions_run :
  fetch_positions (Some ["BTCUSDT"]) [] (world (ok (JList three_items))) =
  ((fetch_positions (Some ["BTCUSDT"]) [] (world (ok (JList three_items)))).1, Return three_positions).
Proof. apply (run_returned []). vm_compute; reflexivity. Qed.

(** X7 at work on the three positions. *)
Lemma three_items_readable :
  returns (fetch_positions (Some ["BTCUSDT"]) [] (world (ok (JList three_items)))).2 = true ↔
  Forall (readable_item (py := builtins)) three_items.
Proof.
  by apply (fetch_positions_returns_iff (py := builtins) (lib := ccxt)
              (Some ["BTCUSDT"]) [] (world (ok (JList three_items))) three_items).
Defined.

(** X8 at work: the second item has a symbol and nothing else. *)
Lemma truncated_item_raises :
  (fetch_positions None []
     (world (ok (JList [held "BTCUSDT" "2.5"; truncated; held "XRPUSDT" "0"])))).2
  = Raise (KeyError "positionAmt").
Proof.
  apply (fetch_positions_first_unreadable (py := builtins) (lib := ccxt) None []
           (world (ok (JList [held "BTCUSDT" "2.5"; truncated; held "XRPUSDT" "0"])))
           [held "BTCUSDT" "2.5"] truncated [held "XRPUSDT" "0"]).
  - reflexivity.
  - reflexivity.
  - constructor; [|constructor]. eexists. split; [reflexivity|]. split; [by eexists|].
    repeat (apply Forall_cons; split;
              [eexists _, _; split; [reflexivity | vm_compute; reflexivity]|]).
    constructor.
  - vm_compute; reflexivity.
Defined.

(** X9 at work: symbol and positionAmt are there, unRealizedProfit is not. *)
Lemma missing_profit_raises :
  position_of_item (py := builtins)
    (JDict [("symbol", JAtom (AStr "BTCUSDT")); ("positionAmt", JAtom (AStr "2.5"))])
  = Raise (KeyError "unRealizedProfit").
Proof.
  apply (position_of_item_missing_field (py := builtins)
           [("symbol", JAtom (AStr "BTCUSDT")); ("positionAmt", JAtom (AStr "2.5"))]
           ["symbol"; "positionAmt"] "unRealizedProfit" ["leverage"; "entryPrice"]).
  - reflexivity.
  - apply Forall_cons. split; [split; [by eexists | intros Hn; by destruct Hn]|].
    apply Forall_cons. split; [|constructor]. split; [by eexists|].
    intros _. eexists _, _. split; [reflexivity | vm_compute; reflexivity].
  - reflexivity.
Defined.

(** X10 at work on the three positions. *)
Lemma three_positions_fields :
  Forall2
    (λ item p,
       py_getitem item "symbol" = Return (symbol p) ∧
       py_getitem item "unRealizedProfit" ≫= py_float (py := builtins)
         = Return (unrealizedPnl p) ∧
       py_getitem item "leverage" ≫= py_float (py := builtins) = Return (leverage p) ∧
       py_getitem item "entryPrice" ≫= py_float (py := builtins)
         = Return (entryPrice p))
    three_items three_positions.
Proof.
  apply (fetch_positions_fields (py := builtins) (lib := ccxt) (Some ["BTCUSDT"]) []
           (world (ok (JList three_items))) _ _ _ three_positions_run).
  reflexivity.
Defined.

(** X12 at work: of the three positions one is long, two are open. *)
Lemma three_positions_open :
  (length (filter (λ p, side p = "long") three_positions)
     ≤ main_open_positions three_positions ≤ length three_items)%nat ∧
  (∀ p, p ∈ three_positions → PrimFloat.eqb (contracts p) 0 = true →
        side p = "short" ∧ main_open_positions [p] = 0%nat).
Proof.
  apply (main_open_positions_spec (py := builtins) (lib := ccxt) (Some ["BTCUSDT"]) []
           (world (ok (JList three_items))) _ _ _ three_positions_run).
  reflexivity.
Defined.

Lemma three_positions_two_open : main_open_positions three_positions = 2%nat.
Proof. vm_compute; reflexivity. Qed.

End PositionShapeExamples.

(** ** The signed order *)

Section OrderShape.
Context {py : Builtins} {lib : Ccxt}.

(** X13.  No key occurs twice in the parameters [patched_create_order]
    signs, even if the caller's list repeats one, and the keys are those
    of the required set and those of the caller. *)
Theorem order_params_keys id type side amount price params timestamp :
  let signed := order_params id type side amount price params timestamp in
  NoDup signed.*1 ∧
  ∀ key, key ∈ signed.*1 ↔
         key ∈ (required_params id type side amount price params timestamp).*1 ∨
         key ∈ params.*1.
Proof.
  intros signed. unfold signed, order_params. split.
  - apply merge_params_keys_NoDup. rewrite required_params_keys.
    destruct (atom_truthy price && String.eqb (str_upper type) "LIMIT"); simpl;
      apply (bool_decide_unpack _); by vm_compute.
  - intros key. rewrite <- !assoc_is_Some, merge_params_assoc.
    destruct (assoc key (required_params _ _ _ _ _ _ _)) as [v|].
    + split; [left; eauto | eauto].
    + split; [by right|]. by intros [[]%is_Some_None|?].
Qed.

(** X14.  Whatever the caller's extra parameters are, the signed set has
    the market identifier, the upper-cased side and type, the stringified
    quantity, the clock's timestamp and the receive window 60000.  For a
    LIMIT order with a truthy price it has that price and the caller's
    [timeInForce] or "GTC"; otherwise [price] and [timeInForce] are there
    only as the caller's own parameters. *)
Theorem order_params_fixed_fields id type side amount price params timestamp :
  let signed := order_params id type side amount price params timestamp in
  assoc "symbol" signed = Some (AStr id) ∧
  assoc "side" signed = Some (AStr (str_upper side)) ∧
  assoc "type" signed = Some (AStr (str_upper type)) ∧
  assoc "quantity" signed = Some (AStr (py_str amount)) ∧
  assoc "timestamp" signed = Some (AInt timestamp) ∧
  assoc "recvWindow" signed = Some (AInt 60000) ∧
  if atom_truthy price && String.eqb (str_upper type) "LIMIT" then
    assoc "price" signed = Some (AStr (py_str price)) ∧
    assoc "timeInForce" signed = Some (default (AStr "GTC") (assoc "timeInForce" params))
  else
    assoc "price" signed = assoc "price" params ∧
    assoc "timeInForce" signed = assoc "timeInForce" params.
Proof.
  intros signed. unfold signed, order_params. rewrite !merge_params_assoc.
  unfold required_params.
  destruct (atom_truthy price && String.eqb (str_upper type) "LIMIT"); simpl;
    by split_and!.
Qed.

End OrderShape.

Module OrderShapeExamples.
Import Demo.

(** A caller who repeats a key and tries to widen the receive window. *)
Lemma repeated_key_signed_once :
  order_params (py := builtins) "BTCUSDT" "market" "sell" (AInt 2) ANone
    [("reduceOnly", AStr "true"); ("recvWindow", AInt 900000);
     ("reduceOnly", AStr "false"); ("price", AStr "1")] 1700000000000
  = [("symbol", AStr "BTCUSDT"); ("side", AStr "SELL"); ("type", AStr "MARKET");
     ("quantity", AStr "2"); ("timestamp", AInt 1700000000000);
     ("recvWindow", AInt 60000); ("reduceOnly", AStr "true"); ("price", AStr "1")].
Proof. vm_compute; reflexivity. Qed.

End OrderShapeExamples.

(** ** What a call leaves behind *)

Section CallEffects.
Context {py : Builtins} {lib : Ccxt}.

(** X15.  [patched_fetch_ticker] and [patched_create_order] resolve the
    market before they send.  On a client without markets the call does
    not get past lines 93 and 146: the library loads the markets with
    requests of its own, and the call raises what [load_markets] raised or
    else the [TypeError] of awaiting what it returned; the patched code
    has sent nothing and printed nothing.  On a client with markets, a
    symbol the client cannot resolve raises the library's exception and
    leaves the world as it was. *)
Theorem resolution_precedes_request symbol type side amount price params st :
  let ticker := patched_fetch_ticker symbol params st in
  let order := patched_create_order symbol type side amount price params st in
  (markets (self st) = false →
   let load := load_markets (self st) (server st) in
   ticker.2 = Raise (default TypeError (raised load)) ∧
   order.2 = Raise (default TypeError (raised load)) ∧
   ticker.1 = order.1 ∧
   self order.1 = client_after load ∧
   sent order.1 = sent st ∧ printed order.1 = printed st ∧
   library_sent order.1 = library_sent st ++ requests load) ∧
  (markets (self st) = true →
   ∀ e, market (self st) symbol = Raise e →
        ticker = (st, Raise e) ∧ order = (st, Raise e)).
Proof.
  intros ticker order. unfold ticker, order.
  rewrite fetch_ticker_run, create_order_run. split.
  - intros Hm. by rewrite ensure_markets_unloaded.
  - intros Hm e He. by rewrite ensure_markets_loaded, He.
Qed.

(** X16.  The patched code sends at most one request per call, whatever
    the response: the balance and positions fetches exactly one, the
    signed account and position-risk requests at the clock's time; the
    ticker fetch and the order one when the client has its markets and
    resolves the symbol, the request for that market, the order's signed
    over [order_params] at the clock's time, and none otherwise. *)
Theorem one_request_per_call symbol symbols type side amount price params st :
  let resolved (rq : market_t → request) :=
    if markets (self st) then
      match market (self st) symbol with Return m => [rq m] | Raise _ => [] end
    else [] in
  sent (patched_fetch_balance params st).1 =
    sent st ++ [account_request (self st) (clock st)] ∧
  sent (patched_fetch_positions symbols params st).1 =
    sent st ++ [position_risk_request (self st) symbols params (clock st)] ∧
  sent (patched_fetch_ticker symbol params st).1 = sent st ++ resolved ticker_request ∧
  sent (patched_create_order symbol type side amount price params st).1 =
    sent st ++
    resolved (λ m, order_request (self st)
                     (order_params (market_id m) type side amount price params (clock st))).
Proof.
  intros resolved. unfold resolved.
  rewrite fetch_balance_run, fetch_positions_run, fetch_ticker_run, create_order_run.
  split_and!; [done..| |].
  - destruct (markets (self st)) eqn:Hm.
    + rewrite ensure_markets_loaded by done.
      by destruct (market (self st) symbol) as [m|]; simpl; rewrite ?app_nil_r.
    + rewrite ensure_markets_unloaded by done. simpl. by rewrite app_nil_r.
  - destruct (markets (self st)) eqn:Hm.
    + rewrite ensure_markets_loaded by done.
      destruct (market (self st) symbol) as [m|]; simpl; [|by rewrite app_nil_r].
      destruct (body _) as [data|]; simpl; [|done].
      destruct (status _ =? 200)%Z; simpl; [|done].
      by destruct (py_get data "orderId" ANone).
    + rewrite ensure_markets_unloaded by done. simpl. by rewrite app_nil_r.
Qed.

(** X17.  The balance and positions fetches never touch the client, and
    the ticker fetch and the order leave it as it is when its markets are
    loaded: [load_markets] is called only on a client without markets. *)
Theorem markets_load_is_lazy symbol symbols type side amount price params st :
  self (patched_fetch_balance params st).1 = self st ∧
  self (patched_fetch_positions symbols params st).1 = self st ∧
  (markets (self st) = true →
   self (patched_fetch_ticker symbol params st).1 = self st ∧
   self (patched_create_order symbol type side amount price params st).1 = self st).
Proof.
  rewrite fetch_balance_run, fetch_positions_run, fetch_ticker_run, create_order_run.
  split_and!; [done..|]. intros Hm. unfold ensure_markets. rewrite Hm.
  destruct (market (self st) symbol) as [m|]; simpl; [|done].
  destruct (body _) as [data|]; simpl; [|done].
  destruct (status _ =? 200)%Z; simpl; [|done].
  by destruct (py_get data "orderId" ANone).
Qed.

(** X18.  [patched_create_order] prints its success line once, with the
    [orderId] of the payload or [None], when the response is a 200 with an
    object for a body, also when [parse_order] then raises; it prints
    nothing on another status or when it sent nothing. *)
Theorem order_success_line symbol type side amount price params st st' out :
  patched_create_order symbol type side amount price params st = (st', out) →
  (∀ rq d,
     sent st' = sent st ++ [rq] → body (server st rq) = Some (JDict d) →
     status (server st rq) = 200%Z →
     printed st' = printed st ++ [default (JAtom ANone) (assoc "orderId" d)]) ∧
  (∀ rq, sent st' = sent st ++ [rq] → status (server st rq) ≠ 200%Z →
         printed st' = printed st) ∧
  (sent st' = sent st → printed st' = printed st).
Proof.
  rewrite create_order_run.
  destruct (ensure_markets st) as [st1 [[]|e1]] eqn:He;
    apply ensure_markets_world in He as (_ & Hsrv & Hsent & Hprinted).
  2: { intros [= <- <-]. split_and!; [| |done].
       - intros rq d Hs. rewrite Hsent in Hs. by apply not_sent in Hs.
       - intros rq Hs. rewrite Hsent in Hs. by apply not_sent in Hs. }
  destruct (market (self st1) symbol) as [m|].
  2: { intros [= <- <-]. split_and!; [| |done].
       - intros rq d Hs. rewrite Hsent in Hs. by apply not_sent in Hs.
       - intros rq Hs. rewrite Hsent in Hs. by apply not_sent in Hs. }
  simpl. rewrite Hsrv.
  assert (Hnot : ∀ rq : request, sent st ++ [rq] ≠ sent st).
  { intros rq Hs. symmetry in Hs. by apply not_sent in Hs. }
  destruct (body _) as [data|] eqn:Hb.
  2: { intros [= <- <-]. simpl. rewrite Hsent. split_and!.
       - intros rq d [_ <-]%app_inj_tail. congruence.
       - done.
       - by intros ?%Hnot. }
  destruct (status _ =? 200)%Z eqn:Hst.
  2: { intros [= <- <-]. simpl. rewrite Hsent. apply Z.eqb_neq in Hst. split_and!.
       - intros rq d [_ <-]%app_inj_tail. congruence.
       - done.
       - by intros ?%Hnot. }
  apply Z.eqb_eq in Hst.
  destruct data as [a|l|d]; simpl; intros [= <- <-]; simpl; rewrite ?Hsent, ?Hprinted.
  - split_and!.
    + intros rq d [_ <-]%app_inj_tail. congruence.
    + done.
    + by intros ?%Hnot.
  - split_and!.
    + intros rq d [_ <-]%app_inj_tail. congruence.
    + done.
    + by intros ?%Hnot.
  - split_and!.
    + intros rq d' [_ <-]%app_inj_tail. rewrite Hb. by intros [= <-].
    + intros rq [_ <-]%app_inj_tail. congruence.
    + by intros ?%Hnot.
Qed.

Lemma sent_to_testnet_step (log : list request) rq :
  Forall to_testnet log → to_testnet rq → Forall to_testnet (log ++ [rq]).
Proof. intros Hl Hrq. apply Forall_app. split; [done|by constructor]. Qed.

(** X19.  Every request the patched code sends goes to the testnet's
    futures API with certificate checks off: if its log held only such
    requests before a call, it does after.  The library sends nothing in
    the balance and positions fetches, and nothing in the ticker fetch and
    the order on a client with markets; on a client without them it sends
    what [load_markets] sends, where the patches have no say. *)
Theorem requests_stay_on_testnet symbol symbols type side amount price params st :
  let loading :=
    if markets (self st) then [] else requests (load_markets (self st) (server st)) in
  Forall to_testnet (sent st) →
  (Forall to_testnet (sent (patched_fetch_balance params st).1) ∧
   Forall to_testnet (sent (patched_fetch_ticker symbol params st).1) ∧
   Forall to_testnet (sent (patched_fetch_positions symbols params st).1) ∧
   Forall to_testnet
     (sent (patched_create_order symbol type side amount price params st).1)) ∧
  library_sent (patched_fetch_balance params st).1 = library_sent st ∧
  library_sent (patched_fetch_positions symbols params st).1 = library_sent st ∧
  library_sent (patched_fetch_ticker symbol params st).1 = library_sent st ++ loading ∧
  library_sent (patched_create_order symbol type side amount price params st).1 =
    library_sent st ++ loading.
Proof.
  intros loading Hlog. unfold loading.
  rewrite fetch_balance_run, fetch_positions_run, fetch_ticker_run, create_order_run.
  assert (Hstep : ∀ rq, to_testnet rq → Forall to_testnet (sent (send rq st).1)).
  { intros rq Hrq. simpl. by apply sent_to_testnet_step. }
  assert (Hticker : ∀ m, to_testnet (ticker_request m)).
  { intros m. split; [done|]. eexists. reflexivity. }
  assert (Horder : ∀ me signed, to_testnet (order_request me signed)).
  { intros me signed. split; [done|]. eexists. reflexivity. }
  destruct (markets (self st)) eqn:Hm.
  - rewrite ensure_markets_loaded by done. rewrite app_nil_r. split_and!; try done.
    + apply Hstep. split; [done|]. eexists. reflexivity.
    + destruct (market (self st) symbol) as [m|]; [|done]. by apply Hstep.
    + apply Hstep. split; [done|]. eexists. reflexivity.
    + destruct (market (self st) symbol) as [m|]; [|done].
      specialize (Hstep _ (Horder (self st)
        (order_params (market_id m) type side amount price params (clock st)))).
      simpl in *. destruct (body _) as [data|]; [|done].
      destruct (status _ =? 200)%Z; [|done].
      by destruct (py_get data "orderId" ANone).
    + by destruct (market (self st) symbol).
    + destruct (market (self st) symbol) as [m|]; [|done]. simpl.
      destruct (body _) as [data|]; [|done].
      destruct (status _ =? 200)%Z; [|done].
      by destruct (py_get data "orderId" ANone).
  - rewrite ensure_markets_unloaded by done. split_and!; try done.
    + apply Hstep. split; [done|]. eexists. reflexivity.
    + apply Hstep. split; [done|]. eexists. reflexivity.
Qed.

End CallEffects.

Module CallEffectExamples.
Import Demo.

(** X15 at work: the client as the factory returns it, and a symbol the
    client does not know. *)
Lemma unknown_symbol_sends_nothing :
  ((fetch_ticker "BTC/USDT:USDT" [] (fresh_world denied)).2 = Raise TypeError ∧
   (create_order "BTC/USDT:USDT" "market" "buy" (AInt 1) ANone []
      (fresh_world denied)).2 = Raise TypeError ∧
   sent (create_order "BTC/USDT:USDT" "market" "buy" (AInt 1) ANone []
           (fresh_world denied)).1 = [] ∧
   library_sent (create_order "BTC/USDT:USDT" "market" "buy" (AInt 1) ANone []
                   (fresh_world denied)).1 = [exchange_info]) ∧
  fetch_ticker "DOGE/USDT" [] (world denied)
    = (world denied, Raise (LibraryError "BadSymbol")) ∧
  create_order "DOGE/USDT" "market" "buy" (AInt 1) ANone [] (world denied)
    = (world denied, Raise (LibraryError "BadSymbol")).
Proof.
  destruct (resolution_precedes_request (py := builtins) (lib := ccxt)
              "BTC/USDT:USDT" "market" "buy" (AInt 1) ANone [] (fresh_world denied))
    as [Hfresh _].
  destruct (Hfresh eq_refl) as (Hticker & Horder & _ & _ & Hsent & _ & Hlibrary).
  destruct (resolution_precedes_request (py := builtins) (lib := ccxt)
              "DOGE/USDT" "market" "buy" (AInt 1) ANone [] (world denied))
    as [_ Hknown].
  split; [by split_and!|]. by apply Hknown.
Defined.

(** X18 at work: the exchange accepts the order and names it 7. *)
Lemma order_seven_is_printed :
  printed (create_order "BTC/USDT:USDT" "market" "buy" (AInt 1) ANone []
             (world (ok (JDict [("orderId", JAtom (AInt 7))])))).1
  = [JAtom (AInt 7)].
Proof.
  destruct (order_success_line (py := builtins) (lib := ccxt)
              "BTC/USDT:USDT" "market" "buy" (AInt 1) ANone []
              (world (ok (JDict [("orderId", JAtom (AInt 7))]))) _ _
              (surjective_pairing _)) as (Hline & _ & _).
  exact (Hline _ [("orderId", JAtom (AInt 7))] eq_refl eq_refl eq_refl).
Defined.

(** X19 at work: from an empty log, each call's own log is on the
    testnet, and the library has sent nothing. *)
Lemma first_calls_on_testnet :
  (Forall to_testnet (sent (fetch_balance [] (world denied)).1) ∧
   Forall to_testnet (sent (fetch_ticker "BTC/USDT:USDT" [] (world denied)).1) ∧
   Forall to_testnet (sent (fetch_positions None [] (world denied)).1) ∧
   Forall to_testnet
     (sent (create_order "BTC/USDT:USDT" "market" "buy" (AInt 1) ANone []
              (world denied)).1)) ∧
  library_sent (fetch_balance [] (world denied)).1 = [] ∧
  library_sent (fetch_positions None [] (world denied)).1 = [] ∧
  library_sent (fetch_ticker "BTC/USDT:USDT" [] (world denied)).1 = [] ∧
  library_sent (create_order "BTC/USDT:USDT" "market" "buy" (AInt 1) ANone []
                  (world denied)).1 = [].
Proof.
  apply (requests_stay_on_testnet (py := builtins) (lib := ccxt)). constructor.
Defined.

(** The request the library makes for a client without markets goes
    elsewhere. *)
Lemma fresh_client_loads_markets :
  library_sent (fetch_ticker "BTC/USDT:USDT" [] (fresh_world denied)).1 = [exchange_info] ∧
  ¬ to_testnet exchange_info.
Proof. split; [reflexivity|]. by intros [? _]. Qed.

(** The order request of that call. *)
Lemma order_request_on_the_wire :
  (λ rq, (method rq, url rq, headers rq, ssl rq))
    <$> sent (create_order "BTC/USDT:USDT" "market" "buy" (AInt 1) ANone []
                (world denied)).1
  = [(POST,
      "https://testnet.binancefuture.com/fapi/v1/order?symbol=BTCUSDT&side=BUY&type=MARKET&quantity=1&timestamp=1700000000000&recvWindow=60000&signature=hmac(secret,symbol=BTCUSDT&side=BUY&type=MARKET&quantity=1&timestamp=1700000000000&recvWindow=60000)",
      [("X-MBX-APIKEY", "key")], false)].
Proof. vm_compute; reflexivity. Qed.

End CallEffectExamples.
